(** * Incremental booking pipeline: a shallow embedding

    The program under study is [incremental_booking_data_processing.py], a
    metadata-driven ETL job: a watermark table decides which daily files are
    pending, each pending date is validated, joined, aggregated into a
    cumulative fact table, and merged into an SCD2 customer dimension.

    Conventions of the model.
    - A DataFrame is a list of rows; a nullable column is an [option].
      Spark fixes no order of rows: where a statement writes a table as a
      list, the order is the model's (rows in place, appended rows last,
      groups by first occurrence).
    - Numeric columns are integers ([Z]), the type [inferSchema] gives to
      integral CSV columns.
    - A Python [date] is the record [date]; the source renders dates with
      [strftime] only to hand them back to [DATE(...)] or [cast("date")],
      and the model keeps the date itself there.
    - File and table names are ASCII strings. *)

From Stdlib Require Import List ZArith Bool Ascii String Lia.
From Stdlib Require Import Sorted Permutation.
Import ListNotations.
Local Open Scope Z_scope.

Set Implicit Arguments.

(* ================================================================= *)
(** ** Calendar dates *)

Record date : Type := mkdate { year : Z; month : Z; day : Z }.

Definition date_eqb (a b : date) : bool :=
  (year a =? year b) && (month a =? month b) && (day a =? day b).

(** Python compares dates as (year, month, day) triples. *)
Definition date_ltb (a b : date) : bool :=
  (year a <? year b)
  || ((year a =? year b)
      && ((month a <? month b)
          || ((month a =? month b) && (day a <? day b)))).

Definition date_leb (a b : date) : bool := date_ltb a b || date_eqb a b.

Definition date_lt (a b : date) : Prop := date_ltb a b = true.
Definition date_le (a b : date) : Prop := date_leb a b = true.

Definition is_leap (y : Z) : bool :=
  ((y mod 4 =? 0) && negb (y mod 100 =? 0)) || (y mod 400 =? 0).

Definition days_in_month (y m : Z) : Z :=
  if m =? 2 then (if is_leap y then 29 else 28)
  else if (m =? 4) || (m =? 6) || (m =? 9) || (m =? 11) then 30
  else 31.

(** What the [datetime] constructor accepts (MINYEAR = 1, MAXYEAR = 9999). *)
Definition valid_date (y m d : Z) : bool :=
  (1 <=? y) && (y <=? 9999) && (1 <=? m) && (m <=? 12)
  && (1 <=? d) && (d <=? days_in_month y m).

(** The two dates the source writes as literals. *)
Definition SENTINEL_DATE : date := mkdate 1900 1 1.     (* DATE('1900-01-01') *)
Definition OPEN_DATE : date := mkdate 9999 12 31.       (* '9999-12-31' *)

(* ================================================================= *)
(** ** The fragment of [re] the two patterns of [__main__] use *)

Inductive item : Type :=
| Chr (c : ascii)        (* a literal character, escaped or not *)
| Digit                  (* \d *)
| AnyChar                (* .  : any character but a newline *)
| GroupOpen              (* (  *)
| GroupClose.            (* )  *)

Definition backslash : ascii := Ascii.ascii_of_nat 92.
Definition newline : ascii := Ascii.ascii_of_nat 10.

Definition is_digit (c : ascii) : bool :=
  let n := nat_of_ascii c in (Nat.leb 48 n) && (Nat.leb n 57).

Definition digit_val (c : ascii) : Z := Z.of_nat (nat_of_ascii c) - 48.

Definition is_alnum (c : ascii) : bool :=
  let n := nat_of_ascii c in
  ((Nat.leb 48 n) && (Nat.leb n 57)) || ((Nat.leb 65 n) && (Nat.leb n 90))
  || ((Nat.leb 97 n) && (Nat.leb n 122)).

Definition ascii_eqb (a b : ascii) : bool := Ascii.eqb a b.

(** The operators of [re] that the two patterns do not use. *)
Definition is_operator (c : ascii) : bool :=
  existsb (ascii_eqb c)
          ["*"; "+"; "?"; "["; "]"; "|"; "^"; "$"; "}"]%char.

(** [compile_from acc s] reads the pattern text [s]; [acc] holds the items
    read so far, last one first.  [{n}] (one decimal digit, not 0) makes the
    item before it stand [n] times; a backslash before a punctuation
    character makes it a literal.  [None]: the text is outside this
    fragment. *)
Fixpoint compile_from (acc : list item) (s : string) : option (list item) :=
  match s with
  | EmptyString => Some (rev acc)
  | String c rest =>
      if ascii_eqb c backslash then
        match rest with
        | EmptyString => None
        | String e rest' =>
            if ascii_eqb e "d"%char then compile_from (Digit :: acc) rest'
            else if is_alnum e then None      (* other classes: not modelled *)
            else compile_from (Chr e :: acc) rest'
        end
      else if ascii_eqb c "."%char then compile_from (AnyChar :: acc) rest
      else if ascii_eqb c "("%char then compile_from (GroupOpen :: acc) rest
      else if ascii_eqb c ")"%char then compile_from (GroupClose :: acc) rest
      else if ascii_eqb c "{"%char then
        match rest, acc with
        | String n (String close rest'), it :: _ =>
            if is_digit n && negb (ascii_eqb n "0"%char) && ascii_eqb close "}"%char
            then compile_from (repeat it (Z.to_nat (digit_val n) - 1) ++ acc) rest'
            else None
        | _, _ => None
        end
      else if is_operator c then None         (* not modelled *)
      else compile_from (Chr c :: acc) rest
  end.

Definition compile (pattern : string) : option (list item) :=
  compile_from [] pattern.

Definition item_matches (it : item) (c : ascii) : bool :=
  match it with
  | Chr x => ascii_eqb x c
  | Digit => is_digit c
  | AnyChar => negb (ascii_eqb c newline)
  | GroupOpen | GroupClose => false
  end.

(** [match_here p s capturing acc]: does [p] match a prefix of [s]?  The
    result is the text of group 1; [acc] collects it, last character first,
    while [capturing]. *)
Fixpoint match_here (p : list item) (s : string) (capturing : bool)
         (acc : list ascii) : option string :=
  match p with
  | [] => Some (string_of_list_ascii (rev acc))
  | GroupOpen :: p' => match_here p' s true acc
  | GroupClose :: p' => match_here p' s false acc
  | it :: p' =>
      match s with
      | EmptyString => None
      | String c s' =>
          if item_matches it c
          then match_here p' s' capturing (if capturing then c :: acc else acc)
          else None
      end
  end.

(** [re.search(pattern, name)] followed by [m.group(1)]: the leftmost
    position where the pattern matches. *)
Fixpoint search (p : list item) (s : string) : option string :=
  match match_here p s false [] with
  | Some g => Some g
  | None => match s with
            | EmptyString => None
            | String _ s' => search p s'
            end
  end.

(** The pattern literals of [__main__], character for character. *)
Definition BOOKING_PATTERN : string := "bookings_(\d{4}-\d{2}-\d{2})\\.csv".
Definition CUSTOMER_PATTERN : string := "customers_(\d{4}-\d{2}-\d{2})\\.csv".

(* ================================================================= *)
(** ** Date discovery: [list_raw_dates] and the pending set *)

(** [datetime.strptime(text, "%Y-%m-%d").date()] on the texts group 1 can
    hold (four digits, two digits, two digits): [None] stands for the
    [ValueError] of a date that does not exist. *)
Definition strptime_ymd (text : string) : option date :=
  match list_ascii_of_string text with
  | [y1; y2; y3; y4; s1; m1; m2; s2; d1; d2] =>
      if forallb is_digit [y1; y2; y3; y4; m1; m2; d1; d2]
         && ascii_eqb s1 "-"%char && ascii_eqb s2 "-"%char
      then
        let y := 1000 * digit_val y1 + 100 * digit_val y2
                 + 10 * digit_val y3 + digit_val y4 in
        let m := 10 * digit_val m1 + digit_val m2 in
        let d := 10 * digit_val d1 + digit_val d2 in
        if valid_date y m d then Some (mkdate y m d) else None
      else None
  | _ => None
  end.

Definition date_in (d : date) (l : list date) : bool := existsb (date_eqb d) l.

(** [list(set(dates))]: one copy of each date. *)
Fixpoint set_of (l : list date) : list date :=
  match l with
  | [] => []
  | d :: l' => if date_in d l' then set_of l' else d :: set_of l'
  end.

Fixpoint insert_sorted (d : date) (l : list date) : list date :=
  match l with
  | [] => [d]
  | x :: l' => if date_leb d x then d :: l else x :: insert_sorted d l'
  end.

(** [sorted(...)] on dates. *)
Fixpoint sorted (l : list date) : list date :=
  match l with
  | [] => []
  | d :: l' => insert_sorted d (sorted l')
  end.

(** The loop of [list_raw_dates]: a name the pattern does not match, or
    whose date [strptime] rejects, adds nothing. *)
Fixpoint collect_dates (p : list item) (names : list string) : list date :=
  match names with
  | [] => []
  | name :: rest =>
      match search p name with
      | Some g =>
          match strptime_ymd g with
          | Some dt => dt :: collect_dates p rest
          | None => collect_dates p rest
          end
      | None => collect_dates p rest
      end
  end.

(** [list_raw_dates(spark, raw_dir, pattern)], given the names
    [dbutils.fs.ls(raw_dir)] returned.  [None]: the pattern is outside the
    modelled fragment. *)
Definition list_raw_dates (files : list string) (pattern : string)
  : option (list date) :=
  match compile pattern with
  | Some p => Some (sorted (set_of (collect_dates p files)))
  | None => None
  end.

(** [sorted([d for d in booking_dates
             if d in customer_dates and d > last_processed])] *)
Definition pending_dates (booking_dates customer_dates : list date)
           (last_processed : date) : list date :=
  sorted (filter (fun d => date_in d customer_dates && date_ltb last_processed d)
                 booking_dates).

(** [date_obj.strftime("%Y-%m-%d")] for four-digit years. *)
Definition digit_char (n : Z) : ascii := ascii_of_nat (Z.to_nat (48 + n mod 10)).

Definition strftime_ymd (d : date) : string :=
  string_of_list_ascii
    [digit_char (year d / 1000); digit_char (year d / 100);
     digit_char (year d / 10); digit_char (year d); "-"%char;
     digit_char (month d / 10); digit_char (month d); "-"%char;
     digit_char (day d / 10); digit_char (day d)].

(** The file names [process_date] reads for a date. *)
Definition booking_file_name (d : date) : string :=
  ("bookings_" ++ strftime_ymd d ++ ".csv")%string.
Definition customer_file_name (d : date) : string :=
  ("customers_" ++ strftime_ymd d ++ ".csv")%string.


(* ================================================================= *)
(** ** Rows and nullable columns *)

Definition option_eqb {A : Type} (eqb : A -> A -> bool) (a b : option A) : bool :=
  match a, b with
  | Some x, Some y => eqb x y
  | None, None => true
  | _, _ => false
  end.

(** SQL [=] in a join or merge condition: a null on either side is no match. *)
Definition sql_eq {A : Type} (eqb : A -> A -> bool) (a b : option A) : bool :=
  match a, b with
  | Some x, Some y => eqb x y
  | _, _ => false
  end.

(** [col("amount") - col("discount")]: null as soon as one side is. *)
Definition sql_sub (a b : option Z) : option Z :=
  match a, b with
  | Some x, Some y => Some (x - y)
  | _, _ => None
  end.

(** [col("quantity") > 0] as a filter condition: a null does not pass. *)
Definition sql_gt0 (a : option Z) : bool :=
  match a with
  | Some x => 0 <? x
  | None => false
  end.

(** How the aggregate [sum] combines two partial sums: nulls are skipped,
    and the sum of nulls only is null. *)
Definition sql_add (a b : option Z) : option Z :=
  match a, b with
  | Some x, Some y => Some (x + y)
  | Some x, None => Some x
  | None, b' => b'
  end.

Definition sql_sum (l : list (option Z)) : option Z := fold_right sql_add None l.

Module Booking.
Record row : Type := mk {
  booking_id : option Z;
  customer_id : option Z;
  amount : option Z;
  quantity : option Z;
  discount : option Z;
  booking_type : option string
}.
End Booking.

Module Customer.
Record row : Type := mk {
  customer_id : option Z;
  customer_name : option string;
  customer_address : option string;
  phone_number : option string;
  email : option string;
  valid_from : option date;
  valid_to : option date
}.

Definition null_row : row := mk None None None None None None None.

Definition set_valid_from (r : row) (v : option date) : row :=
  mk (customer_id r) (customer_name r) (customer_address r) (phone_number r)
     (email r) v (valid_to r).

Definition set_valid_to (r : row) (v : option date) : row :=
  mk (customer_id r) (customer_name r) (customer_address r) (phone_number r)
     (email r) (valid_from r) v.
End Customer.

(** The customer file of a date: its rows, and whether its header has the
    columns [valid_from] and [valid_to] (a row's field for a column the file
    lacks is not read). *)
Record CustomerDF : Type := {
  has_valid_from : bool;
  has_valid_to : bool;
  customer_rows : list Customer.row
}.

Module Fact.
Record row : Type := mk {
  booking_type : option string;
  customer_id : option Z;
  total_amount_sum : option Z;
  total_quantity_sum : option Z
}.
End Fact.

(** A row of [df_transformed]: the booking columns, [ingestion_time], the
    customer columns the left join brought (all null without a match) and
    [total_cost]. *)
Record Transformed : Type := {
  t_booking : Booking.row;
  ingestion_time : Z;
  t_customer : Customer.row;
  total_cost : option Z
}.

(* ================================================================= *)
(** ** Transform stage (step 3 of [process_date]) *)

Definition join_matches (b : Booking.row) (customers : list Customer.row)
  : list Customer.row :=
  filter (fun c => sql_eq Z.eqb (Booking.customer_id b) (Customer.customer_id c))
         customers.

(** [booking_df.join(customer_df, "customer_id", how="left")], each row
    already carrying its [ingestion_time] and not yet its [total_cost]. *)
Definition left_join (now : Z) (bookings : list Booking.row)
           (customers : list Customer.row) : list (Booking.row * Z * Customer.row) :=
  flat_map (fun b =>
              match join_matches b customers with
              | [] => [(b, now, Customer.null_row)]
              | ms => map (fun c => (b, now, c)) ms
              end) bookings.

Definition with_total_cost (j : Booking.row * Z * Customer.row) : Transformed :=
  let '(b, t, c) := j in
  {| t_booking := b; ingestion_time := t; t_customer := c;
     total_cost := sql_sub (Booking.amount b) (Booking.discount b) |}.

Definition transform (now : Z) (bookings : list Booking.row)
           (customers : list Customer.row) : list Transformed :=
  filter (fun r => sql_gt0 (Booking.quantity (t_booking r)))
         (map with_total_cost (left_join now bookings customers)).

(* ================================================================= *)
(** ** Fact aggregation (steps 4 and 5) *)

Definition key : Type := (option string * option Z)%type.

(** [groupBy] puts nulls in one group. *)
Definition key_eqb (a b : key) : bool :=
  option_eqb String.eqb (fst a) (fst b) && option_eqb Z.eqb (snd a) (snd b).

(** The keys of a frame, one copy each. *)
Fixpoint distinct (l : list key) : list key :=
  match l with
  | [] => []
  | k :: l' => k :: filter (fun k' => negb (key_eqb k k')) (distinct l')
  end.

Section GroupBy.
Variable R : Type.
Variable key_of : R -> key.
Variables amount_of quantity_of : R -> option Z.

Definition group (k : key) (rows : list R) : list R :=
  filter (fun r => key_eqb (key_of r) k) rows.

(** The row of group [k]: the two sums over the rows of that key. *)
Definition summed (rows : list R) (k : key) : Fact.row :=
  {| Fact.booking_type := fst k;
     Fact.customer_id := snd k;
     Fact.total_amount_sum := sql_sum (map amount_of (group k rows));
     Fact.total_quantity_sum := sql_sum (map quantity_of (group k rows)) |}.

(** [rows.groupBy("booking_type", "customer_id")
        .agg(sum(amount_of) as total_amount_sum,
             sum(quantity_of) as total_quantity_sum)] *)
Definition group_sum (rows : list R) : list Fact.row :=
  map (summed rows) (distinct (map key_of rows)).
End GroupBy.

Definition transformed_key (r : Transformed) : key :=
  (Booking.booking_type (t_booking r), Booking.customer_id (t_booking r)).

Definition fact_key (r : Fact.row) : key :=
  (Fact.booking_type r, Fact.customer_id r).

(** [df_agg] *)
Definition aggregate (rows : list Transformed) : list Fact.row :=
  group_sum transformed_key total_cost
            (fun r => Booking.quantity (t_booking r)) rows.



(** [combined.groupBy(...).agg(sum("total_amount_sum"), sum("total_quantity_sum"))] *)
Definition reaggregate (combined : list Fact.row) : list Fact.row :=
  group_sum fact_key Fact.total_amount_sum Fact.total_quantity_sum combined.

(** [df_final]: [existing_fact.unionByName(df_agg)] summed again by key when
    the fact table exists, [df_agg] otherwise. *)
Definition aggregate_and_merge (rows : list Transformed)
           (existing_fact : option (list Fact.row)) : list Fact.row :=
  match existing_fact with
  | Some existing => reaggregate (existing ++ aggregate rows)
  | None => aggregate rows
  end.

(* ================================================================= *)
(** ** SCD2 on the customer dimension (step 6) *)

(** The two [withColumn] defaults: a column the file lacks is filled with
    the processing date, respectively the open date. *)
Definition with_validity (date_obj : date) (df : CustomerDF) : list Customer.row :=
  map (fun r =>
         let r1 := if has_valid_from df then r
                   else Customer.set_valid_from r (Some date_obj) in
         if has_valid_to df then r1
         else Customer.set_valid_to r1 (Some OPEN_DATE))
      (customer_rows df).

(** The merge condition
    [scd.customer_id = updates.customer_id AND scd.valid_to = '9999-12-31']. *)
Definition merge_condition (scd updates : Customer.row) : bool :=
  sql_eq Z.eqb (Customer.customer_id scd) (Customer.customer_id updates)
  && sql_eq date_eqb (Customer.valid_to scd) (Some OPEN_DATE).

Definition merge_matches (t : Customer.row) (updates : list Customer.row)
  : list Customer.row :=
  filter (merge_condition t) updates.

(** [merge(...).whenMatchedUpdate(set = {valid_to: updates.valid_from})
    .execute()].  Delta refuses the whole merge ([None]) when two source
    rows match one target row; there is no insert clause. *)
Definition merge_close (scd updates : list Customer.row)
  : option (list Customer.row) :=
  if existsb (fun t => Nat.ltb 1 (List.length (merge_matches t updates))) scd
  then None
  else Some (map (fun t =>
                    match merge_matches t updates with
                    | u :: _ => Customer.set_valid_to t (Customer.valid_from u)
                    | [] => t
                    end) scd).

(** Step 6 on the table alone: merge then append when the table exists,
    the batch as the first table otherwise. *)
Definition apply_scd2 (date_obj : date) (customer_df : CustomerDF)
           (existing : option (list Customer.row)) : option (list Customer.row) :=
  let updates := with_validity date_obj customer_df in
  match existing with
  | Some scd =>
      match merge_close scd updates with
      | Some closed => Some (closed ++ updates)
      | None => None
      end
  | None => Some updates
  end.

(* ================================================================= *)
(** ** Validation (step 2) *)

(** The constraints the source chains on a PyDeequ check. *)
Inductive constraint : Type :=
| hasSizePositive                       (* .hasSize(lambda x: x > 0) *)
| isUnique (column : string)
| isComplete (column : string)
| isNonNegative (column : string).

Definition check_booking : list constraint :=
  [hasSizePositive; isUnique "booking_id"; isComplete "customer_id";
   isComplete "amount"; isNonNegative "amount"; isNonNegative "quantity";
   isNonNegative "discount"].

Definition check_customer : list constraint :=
  [hasSizePositive; isUnique "customer_id"; isComplete "customer_name";
   isComplete "customer_address"; isComplete "phone_number"; isComplete "email"].

(* ================================================================= *)
(** ** The stores and the environment of a run *)

Module Meta.
Record row : Type := mk { table_name : string; last_processed_date : date }.
End Meta.

(** The three Delta tables; [None] is a table that does not exist yet. *)
Record Store : Type := {
  metadata : option (list Meta.row);
  fact_table : option (list Fact.row);
  scd_table : option (list Customer.row)
}.

(** The store writes of a date that the environment can make fail. *)
Inductive op : Type :=
| FactOverwrite        (* df_final.write ... saveAsTable(FACT_TABLE) *)
| ScdMerge             (* scd_table.merge(...).execute() *)
| ScdAppend            (* customer_df.write ... mode("append") *)
| ScdCreate            (* customer_df.write ... mode("overwrite") *)
| MetadataUpdate.      (* UPDATE pipeline_metadata *)

(** What a run reads from outside the three tables. *)
Record Env : Type := {
  PYDEEQU_AVAILABLE : bool;
  (** [VerificationSuite(spark).onData(df).addCheck(c).run().status
      == "Success"], for the engine installed on the cluster. *)
  verify_bookings : list constraint -> list Booking.row -> bool;
  verify_customers : list constraint -> CustomerDF -> bool;
  current_timestamp : date -> Z;
  ls : string -> list string;                          (* dbutils.fs.ls, names *)
  load_bookings : string -> option (list Booking.row); (* spark.read ... load *)
  load_customers : string -> option CustomerDF;
  write_fails : date -> op -> bool
}.

Definition BOOKING_RAW_DIR : string := "dbfs:/DataEngineering/bookings_daily_data/".
Definition CUSTOMER_RAW_DIR : string := "dbfs:/DataEngineering/customers_daily_data/".
Definition PIPELINE_NAME : string := "booking_customer_pipeline".

Inductive exn : Type :=
| ValueError (msg : string)      (* raised by [process_date] itself *)
| PathNotFound (path : string)   (* a CSV that is not there *)
| MergeConflict                  (* two source rows for one target row *)
| WriteFailure (o : op)          (* the store refused a write *)
| TableNotFound
| IndexError.

Inductive outcome (A : Type) : Type :=
| Ok (a : A)
| Raise (e : exn).
Arguments Ok {A} a.
Arguments Raise {A} e.

(** A computation on the stores: its outcome and the stores as it leaves
    them, also when it raises. *)
Definition M (A : Type) : Type := Store -> outcome A * Store.

Definition ret {A : Type} (a : A) : M A := fun s => (Ok a, s).

Definition raise {A : Type} (e : exn) : M A := fun s => (Raise e, s).

Definition bind {A B : Type} (m : M A) (k : A -> M B) : M B :=
  fun s => match m s with
           | (Ok a, s') => k a s'
           | (Raise e, s') => (Raise e, s')
           end.

Declare Scope pipeline_scope.
Delimit Scope pipeline_scope with pipeline.
Notation "x <- m ;; k" := (bind m (fun x => k))
  (at level 61, m at next level, right associativity) : pipeline_scope.
Notation "m ;;; k" := (bind m (fun _ => k))
  (at level 61, right associativity) : pipeline_scope.
Local Open Scope pipeline_scope.

Definition get_store : M Store := fun s => (Ok s, s).
Definition put_metadata (t : list Meta.row) : M unit :=
  fun s => (Ok tt, {| metadata := Some t; fact_table := fact_table s;
                      scd_table := scd_table s |}).
Definition put_fact (t : list Fact.row) : M unit :=
  fun s => (Ok tt, {| metadata := metadata s; fact_table := Some t;
                      scd_table := scd_table s |}).
Definition put_scd (t : list Customer.row) : M unit :=
  fun s => (Ok tt, {| metadata := metadata s; fact_table := fact_table s;
                      scd_table := Some t |}).

(** The rows of a table that may not exist yet. *)
Definition rows_of {A : Type} (t : option (list A)) : list A :=
  match t with Some l => l | None => [] end.

(** [df.write.format("delta").mode("append").saveAsTable(SCD_TABLE)] *)
Definition append_scd (rows : list Customer.row) : M unit :=
  s <- get_store ;;
  put_scd (rows_of (scd_table s) ++ rows).

(** A write the environment may refuse; a refused write changes nothing. *)
Definition guarded (env : Env) (d : date) (o : op) (w : M unit) : M unit :=
  if write_fails env d o then raise (WriteFailure o) else w.

(* ================================================================= *)
(** ** The watermark store *)

Definition is_pipeline_row (r : Meta.row) : bool :=
  String.eqb (Meta.table_name r) PIPELINE_NAME.

(** [INSERT INTO ... SELECT name, DATE('1900-01-01') WHERE NOT EXISTS
    (SELECT 1 FROM ... WHERE table_name = name)] *)
Definition insert_if_absent (t : list Meta.row) : list Meta.row :=
  if existsb is_pipeline_row t then t
  else t ++ [Meta.mk PIPELINE_NAME SENTINEL_DATE].

(** The metadata table once CREATE TABLE IF NOT EXISTS has run. *)
Definition created_table (s : Store) : list Meta.row :=
  match metadata s with Some t => t | None => [] end.

(** [get_last_processed_date]: CREATE TABLE IF NOT EXISTS, the conditional
    INSERT, SELECT, [collect()[0]]. *)
Definition get_last_processed_date : M date :=
  s <- get_store ;;
  let created := created_table s in
  put_metadata (insert_if_absent created) ;;;
  match filter is_pipeline_row (insert_if_absent created) with
  | r :: _ => ret (Meta.last_processed_date r)
  | [] => raise IndexError
  end.

(** The rows of the metadata table that belong to this pipeline. *)
Definition pipeline_rows (s : Store) : list Meta.row :=
  match metadata s with
  | Some t => filter is_pipeline_row t
  | None => []
  end.

(** The stores after [n] calls of [get_last_processed_date]. *)
Fixpoint after_gets (n : nat) (s : Store) : Store :=
  match n with
  | O => s
  | S n' => after_gets n' (snd (get_last_processed_date s))
  end.

(** [UPDATE ... SET last_processed_date = DATE(new_date)
    WHERE table_name = PIPELINE_NAME] *)
Definition set_date (new_date : date) (t : list Meta.row) : list Meta.row :=
  map (fun r => if is_pipeline_row r
                then Meta.mk (Meta.table_name r) new_date else r) t.

(** [update_last_processed_date]; the UPDATE needs the table. *)
Definition update_last_processed_date (env : Env) (new_date : date) : M unit :=
  s <- get_store ;;
  match metadata s with
  | None => raise TableNotFound
  | Some t =>
      guarded env new_date MetadataUpdate (put_metadata (set_date new_date t))
  end.

(* ================================================================= *)
(** ** [process_date] and the main loop *)

Definition run_pydeequ_checks {DF : Type} (env : Env)
           (verify : list constraint -> DF -> bool) (df : DF)
           (checks : list constraint) : bool :=
  if negb (PYDEEQU_AVAILABLE env) then true
  else verify checks df.

Definition load {A : Type} (read : string -> option A) (path : string) : M A :=
  match read path with
  | Some df => ret df
  | None => raise (PathNotFound path)
  end.

(** [booking_path] and [customer_path] of [process_date]. *)
Definition booking_path (d : date) : string :=
  (BOOKING_RAW_DIR ++ booking_file_name d)%string.
Definition customer_path (d : date) : string :=
  (CUSTOMER_RAW_DIR ++ customer_file_name d)%string.

Definition process_date (env : Env) (date_obj : date) : M unit :=
  let date_str := strftime_ymd date_obj in
  (* 1) read the raw CSVs *)
  booking_df <- load (load_bookings env) (booking_path date_obj) ;;
  customer_df <- load (load_customers env) (customer_path date_obj) ;;
  (* 2) data quality checks *)
  (if PYDEEQU_AVAILABLE env then
     (if negb (run_pydeequ_checks env (verify_bookings env) booking_df check_booking)
      then raise (ValueError ("Booking data quality checks failed for date "
                              ++ date_str)%string)
      else ret tt) ;;;
     (if negb (run_pydeequ_checks env (verify_customers env) customer_df check_customer)
      then raise (ValueError ("Customer data quality checks failed for date "
                              ++ date_str)%string)
      else ret tt)
   else ret tt) ;;;
  (* 3) transformations, 4) aggregation *)
  let df_transformed :=
    transform (current_timestamp env date_obj) booking_df (customer_rows customer_df) in
  (* 5) the fact table, overwritten *)
  s <- get_store ;;
  let df_final := aggregate_and_merge df_transformed (fact_table s) in
  guarded env date_obj FactOverwrite (put_fact df_final) ;;;
  (* 6) SCD2 on the customer dimension *)
  s' <- get_store ;;
  let updates := with_validity date_obj customer_df in
  match scd_table s' with
  | Some scd =>
      (if write_fails env date_obj ScdMerge then raise (WriteFailure ScdMerge)
       else match merge_close scd updates with
            | Some closed => put_scd closed
            | None => raise MergeConflict
            end) ;;;
      guarded env date_obj ScdAppend (append_scd updates)
  | None =>
      guarded env date_obj ScdCreate (put_scd updates)
  end.

(** The [for] loop of [__main__]: the [except] clause prints and raises
    again, so the first failure ends the run. *)
Fixpoint process_all (env : Env) (pending : list date) : M unit :=
  match pending with
  | [] => ret tt
  | dt :: rest =>
      process_date env dt ;;;
      update_last_processed_date env dt ;;;
      process_all env rest
  end.

(** [__main__].  [sys.exit(0)] and the normal end are both [Ok tt]. *)
Definition main (env : Env) : M unit :=
  last_processed <- get_last_processed_date ;;
  match list_raw_dates (ls env BOOKING_RAW_DIR) BOOKING_PATTERN,
        list_raw_dates (ls env CUSTOMER_RAW_DIR) CUSTOMER_PATTERN with
  | Some booking_dates, Some customer_dates =>
      process_all env (pending_dates booking_dates customer_dates last_processed)
  | _, _ => ret tt            (* not reached: both patterns compile *)
  end.

(* ================================================================= *)
(** ** A reference validation engine and a sample environment

    The theorems on [process_date] hold for every engine.  The examples need
    one: this is the plain reading of the four constraint kinds (a null is
    neither a duplicate nor negative). *)

Inductive cell : Type := NullCell | IntCell (z : Z) | TextCell (t : string).

Definition cell_eqb (a b : cell) : bool :=
  match a, b with
  | IntCell x, IntCell y => x =? y
  | TextCell x, TextCell y => String.eqb x y
  | _, _ => false
  end.

Definition int_cell (v : option Z) : cell :=
  match v with Some z => IntCell z | None => NullCell end.
Definition text_cell (v : option string) : cell :=
  match v with Some t => TextCell t | None => NullCell end.

Definition booking_cell (column : string) (r : Booking.row) : cell :=
  if String.eqb column "booking_id" then int_cell (Booking.booking_id r)
  else if String.eqb column "customer_id" then int_cell (Booking.customer_id r)
  else if String.eqb column "amount" then int_cell (Booking.amount r)
  else if String.eqb column "quantity" then int_cell (Booking.quantity r)
  else if String.eqb column "discount" then int_cell (Booking.discount r)
  else if String.eqb column "booking_type" then text_cell (Booking.booking_type r)
  else NullCell.

Definition customer_cell (column : string) (r : Customer.row) : cell :=
  if String.eqb column "customer_id" then int_cell (Customer.customer_id r)
  else if String.eqb column "customer_name" then text_cell (Customer.customer_name r)
  else if String.eqb column "customer_address" then text_cell (Customer.customer_address r)
  else if String.eqb column "phone_number" then text_cell (Customer.phone_number r)
  else if String.eqb column "email" then text_cell (Customer.email r)
  else NullCell.

Fixpoint all_distinct (l : list cell) : bool :=
  match l with
  | [] => true
  | c :: l' => negb (existsb (cell_eqb c) l') && all_distinct l'
  end.

Definition constraint_holds {R : Type} (cell_of : string -> R -> cell)
           (rows : list R) (c : constraint) : bool :=
  match c with
  | hasSizePositive => negb (Nat.eqb (List.length rows) 0)
  | isUnique column => all_distinct (map (cell_of column) rows)
  | isComplete column =>
      forallb (fun r => match cell_of column r with NullCell => false | _ => true end) rows
  | isNonNegative column =>
      forallb (fun r => match cell_of column r with IntCell z => 0 <=? z | _ => true end) rows
  end.

Definition reference_verify {R : Type} (cell_of : string -> R -> cell)
           (checks : list constraint) (rows : list R) : bool :=
  forallb (constraint_holds cell_of rows) checks.

(** An environment with the reference engine and no failing write, serving
    the same two files for every date. *)
Definition sample_env (pydeequ : bool) (bookings : list Booking.row)
           (customers : CustomerDF) : Env :=
  {| PYDEEQU_AVAILABLE := pydeequ;
     verify_bookings := reference_verify booking_cell;
     verify_customers := fun checks df =>
                           reference_verify customer_cell checks (customer_rows df);
     current_timestamp := fun _ => 0;
     ls := fun _ => [];
     load_bookings := fun _ => Some bookings;
     load_customers := fun _ => Some customers;
     write_fails := fun _ _ => false |}.

(** The same environment with one kind of write refused. *)
Definition with_failure (env : Env) (failing : op) : Env :=
  {| PYDEEQU_AVAILABLE := PYDEEQU_AVAILABLE env;
     verify_bookings := verify_bookings env;
     verify_customers := verify_customers env;
     current_timestamp := current_timestamp env;
     ls := ls env;
     load_bookings := load_bookings env;
     load_customers := load_customers env;
     write_fails := fun _ o => match o, failing with
                               | FactOverwrite, FactOverwrite
                               | ScdMerge, ScdMerge
                               | ScdAppend, ScdAppend
                               | ScdCreate, ScdCreate
                               | MetadataUpdate, MetadataUpdate => true
                               | _, _ => false
                               end |}.

Definition empty_store : Store :=
  {| metadata := None; fact_table := None; scd_table := None |}.

Definition booking (id cust amt qty disc : Z) (type : string) : Booking.row :=
  Booking.mk (Some id) (Some cust) (Some amt) (Some qty) (Some disc) (Some type).

Definition customer (id : Z) (name : string) : Customer.row :=
  Customer.mk (Some id) (Some name) (Some "address"%string) (Some "phone"%string)
              (Some "email"%string) None None.

Definition plain_customers (rows : list Customer.row) : CustomerDF :=
  {| has_valid_from := false; has_valid_to := false; customer_rows := rows |}.

Definition jan (d : Z) : date := mkdate 2024 1 d.

(* ================================================================= *)
(** ** Definitions the statements use *)

(** Does the text hold the character? *)
Fixpoint has_char (c : ascii) (s : string) : bool :=
  match s with
  | EmptyString => false
  | String x s' => ascii_eqb c x || has_char c s'
  end.

(** Step 2 lets the date through: PyDeequ is absent, or both suites end in
    "Success". *)
Definition validation_passes (env : Env) (bookings : list Booking.row)
           (customers : CustomerDF) : bool :=
  negb (PYDEEQU_AVAILABLE env)
  || (verify_bookings env check_booking bookings
      && verify_customers env check_customer customers).

(** The stores with one table replaced. *)
Definition set_fact (s : Store) (t : list Fact.row) : Store :=
  {| metadata := metadata s; fact_table := Some t; scd_table := scd_table s |}.
Definition set_scd (s : Store) (t : list Customer.row) : Store :=
  {| metadata := metadata s; fact_table := fact_table s; scd_table := Some t |}.

(** Sample batches. *)
Definition negative_amount_bookings : list Booking.row := [booking 1 1 (-50) 2 0 "A"].
Definition null_quantity_booking : Booking.row :=
  Booking.mk (Some 1) (Some 1) (Some 50) None (Some 0) (Some "A"%string).
Definition one_customer : CustomerDF := plain_customers [customer 1 "ann"].

(** The fact rows of the aggregation example: key (A, 1). *)
Definition fact_A1 (amount quantity : Z) : Fact.row :=
  Fact.mk (Some "A"%string) (Some 1) (Some amount) (Some quantity).

(** The dimension rows of the interval example: customer 5. *)
Definition dim_row (id : Z) (from to : date) : Customer.row :=
  Customer.mk (Some id) (Some "name"%string) (Some "address"%string)
              (Some "phone"%string) (Some "email"%string) (Some from) (Some to).

Definition incoming_5 : CustomerDF :=
  {| has_valid_from := true; has_valid_to := false;
     customer_rows :=
       [Customer.mk (Some 5) (Some "name"%string) (Some "address"%string)
                    (Some "phone"%string) (Some "email"%string) (Some (jan 5)) None] |}.


(** What the merge does to one row of the table. *)
Definition closed_by (updates : list Customer.row) (t : Customer.row) : Customer.row :=
  match merge_matches t updates with
  | u :: _ => Customer.set_valid_to t (Customer.valid_from u)
  | [] => t
  end.

(** A run whose files hold one booking of customer 1 and customer 1, and
    the same run with the watermark update refused. *)
Definition one_booking : list Booking.row := [booking 1 1 50 2 0 "A"].
Definition env_ok : Env := sample_env true one_booking one_customer.
Definition env_crash : Env := with_failure env_ok MetadataUpdate.

(** The stores of a first run, the watermark read and nothing else there. *)
Definition fresh_store : Store := after_gets 1 empty_store.



(** The stores after the date 2024-01-05 of [env_ok] ran once on
    [fresh_store], and after it ran again on the result. *)
Definition customer_1 (from to : date) : Customer.row :=
  Customer.mk (Some 1) (Some "ann"%string) (Some "address"%string)
              (Some "phone"%string) (Some "email"%string) (Some from) (Some to).

Definition after_first_run : Store :=
  {| metadata := metadata fresh_store;
     fact_table := Some [fact_A1 50 2];
     scd_table := Some [customer_1 (jan 5) OPEN_DATE] |}.

Definition after_rerun : Store :=
  {| metadata := metadata fresh_store;
     fact_table := Some [fact_A1 100 4];
     scd_table := Some [customer_1 (jan 5) (jan 5); customer_1 (jan 5) OPEN_DATE] |}.

(** The date [get_last_processed_date] answers on these stores. *)
Definition watermark (s : Store) : date :=
  match pipeline_rows s with
  | r :: _ => Meta.last_processed_date r
  | [] => SENTINEL_DATE
  end.

(** A booking file name of the shape [BOOKING_PATTERN] asks for: the date,
    a backslash, one more character, [csv]. *)
Definition backslash_name (d : date) (c : ascii) : string :=
  ("bookings_" ++ strftime_ymd d ++ String backslash (String c "csv"))%string.

(** An environment whose two directories list the given names. *)
Definition listing_env (booking_names customer_names : list string) : Env :=
  {| PYDEEQU_AVAILABLE := true;
     verify_bookings := reference_verify booking_cell;
     verify_customers := fun checks df =>
                           reference_verify customer_cell checks (customer_rows df);
     current_timestamp := fun _ => 0;
     ls := fun dir => if String.eqb dir BOOKING_RAW_DIR then booking_names
                      else customer_names;
     load_bookings := fun _ => Some one_booking;
     load_customers := fun _ => Some one_customer;
     write_fails := fun _ _ => false |}.

(** The rows of the metadata table that belong to other pipelines. *)
Definition other_rows (s : Store) : list Meta.row :=
  filter (fun r => negb (is_pipeline_row r)) (created_table s).

(** The same environment with the booking files gone. *)
Definition without_bookings (env : Env) : Env :=
  {| PYDEEQU_AVAILABLE := PYDEEQU_AVAILABLE env;
     verify_bookings := verify_bookings env;
     verify_customers := verify_customers env;
     current_timestamp := current_timestamp env;
     ls := ls env;
     load_bookings := fun _ => None;
     load_customers := load_customers env;
     write_fails := write_fails env |}.

(* ================================================================= *)
(** * Properties *)

(** ** Dates and sorting *)

Lemma date_eqb_eq (a b : date) : date_eqb a b = true <-> a = b.
Proof.
  destruct a as [ya ma da], b as [yb mb db]; unfold date_eqb; simpl.
  rewrite !andb_true_iff, !Z.eqb_eq. split.
  - intros [[-> ->] ->]; reflexivity.
  - intros H; injection H as -> -> ->; auto.
Qed.

Lemma date_eqb_refl (a : date) : date_eqb a a = true.
Proof. apply date_eqb_eq; reflexivity. Qed.

Lemma date_in_In (d : date) (l : list date) : date_in d l = true <-> In d l.
Proof.
  unfold date_in. rewrite existsb_exists. split.
  - intros [x [Hx Hd]]. apply date_eqb_eq in Hd. subst; assumption.
  - intros H. exists d. split; [assumption | apply date_eqb_refl].
Qed.

Ltac date_arith :=
  unfold date_le, date_lt, date_leb, date_ltb, date_eqb in *; simpl in *;
  repeat match goal with
         | H : _ = true |- _ =>
             first [ rewrite orb_true_iff in H | rewrite andb_true_iff in H
                   | rewrite Z.ltb_lt in H | rewrite Z.eqb_eq in H ]
         | H : _ = false |- _ =>
             first [ rewrite orb_false_iff in H | rewrite andb_false_iff in H
                   | rewrite Z.ltb_ge in H | rewrite Z.eqb_neq in H ]
         end;
  repeat first [ rewrite orb_true_iff | rewrite andb_true_iff
               | rewrite Z.ltb_lt | rewrite Z.eqb_eq ];
  lia.

Lemma date_le_total (a b : date) : date_leb a b = false -> date_le b a.
Proof. destruct a, b; intros H; date_arith. Qed.

Lemma date_le_trans (a b c : date) : date_le a b -> date_le b c -> date_le a c.
Proof. destruct a, b, c; intros H1 H2; date_arith. Qed.

Lemma date_le_antisym (a b : date) : date_le a b -> date_le b a -> a = b.
Proof.
  destruct a as [ya ma da], b as [yb mb db]; intros H1 H2.
  assert (ya = yb /\ ma = mb /\ da = db) as (-> & -> & ->) by date_arith.
  reflexivity.
Qed.

Lemma insert_sorted_perm (d : date) (l : list date) :
  Permutation (insert_sorted d l) (d :: l).
Proof.
  induction l as [|x l IH]; simpl.
  - apply Permutation_refl.
  - destruct (date_leb d x).
    + apply Permutation_refl.
    + apply perm_trans with (x :: d :: l).
      * apply perm_skip, IH.
      * apply perm_swap.
Qed.

Lemma sorted_perm (l : list date) : Permutation (sorted l) l.
Proof.
  induction l as [|d l IH]; simpl.
  - apply perm_nil.
  - apply perm_trans with (d :: sorted l).
    + apply insert_sorted_perm.
    + apply perm_skip, IH.
Qed.

Lemma insert_sorted_ascending (d : date) (l : list date) :
  StronglySorted date_le l -> StronglySorted date_le (insert_sorted d l).
Proof.
  induction 1 as [|x l Hs IH Hx]; simpl.
  - repeat constructor.
  - destruct (date_leb d x) eqn:E.
    + constructor.
      * constructor; assumption.
      * constructor; [exact E|].
        eapply Forall_impl; [|exact Hx].
        intros y Hy. apply date_le_trans with x; [exact E | exact Hy].
    + constructor; [exact IH|].
      apply Permutation_Forall with (d :: l).
      * apply Permutation_sym, insert_sorted_perm.
      * constructor; [apply date_le_total; exact E | exact Hx].
Qed.

Lemma sorted_ascending (l : list date) : StronglySorted date_le (sorted l).
Proof.
  induction l as [|d l IH]; simpl.
  - constructor.
  - apply insert_sorted_ascending, IH.
Qed.

Lemma sorted_In (d : date) (l : list date) : In d (sorted l) <-> In d l.
Proof.
  split; apply Permutation_in; [|apply Permutation_sym]; apply sorted_perm.
Qed.

(** ** The pending set *)

(** C5.  The pending dates are exactly the booking dates that are also
    customer dates and come strictly after the watermark, in ascending
    order; with no booking date or no customer date nothing is pending; and
    for booking dates 1, 2, 3, customer dates 2, 3, 4 and watermark 1 (days
    of January 2024) the pending dates are 2, 3. *)
Theorem pending_dates_spec (booking_dates customer_dates : list date) (w : date) :
  (forall d, In d (pending_dates booking_dates customer_dates w)
             <-> In d booking_dates /\ In d customer_dates /\ date_lt w d)
  /\ StronglySorted date_le (pending_dates booking_dates customer_dates w)
  /\ Permutation (pending_dates booking_dates customer_dates w)
                 (filter (fun d => date_in d customer_dates && date_ltb w d)
                         booking_dates)
  /\ pending_dates [] customer_dates w = []
  /\ pending_dates booking_dates [] w = []
  /\ pending_dates [jan 1; jan 2; jan 3] [jan 2; jan 3; jan 4] (jan 1)
     = [jan 2; jan 3].
Proof.
  unfold pending_dates.
  split; [|split; [|split; [|split; [|split]]]].
  - intros d. rewrite sorted_In, filter_In, andb_true_iff, date_in_In.
    unfold date_lt. tauto.
  - apply sorted_ascending.
  - apply sorted_perm.
  - reflexivity.
  - induction booking_dates as [|b l IH]; simpl; [reflexivity | exact IH].
  - reflexivity.
Qed.

(** A duplicate-free listing, as [list_raw_dates] returns it, gives a
    duplicate-free pending sequence. *)
Lemma pending_dates_NoDup (booking_dates customer_dates : list date) (w : date) :
  NoDup booking_dates -> NoDup (pending_dates booking_dates customer_dates w).
Proof.
  intros H. unfold pending_dates.
  eapply Permutation_NoDup.
  - apply Permutation_sym, sorted_perm.
  - apply NoDup_filter, H.
Qed.

(** ** Date discovery *)



Lemma ascii_eqb_eq (a b : ascii) : ascii_eqb a b = true <-> a = b.
Proof. unfold ascii_eqb. apply Ascii.eqb_eq. Qed.

(** A pattern with a literal character only matches text holding it. *)
Lemma match_here_needs_char (c : ascii) (p : list item) :
  In (Chr c) p ->
  forall s capturing acc g,
    match_here p s capturing acc = Some g -> has_char c s = true.
Proof.
  induction p as [|it p IH]; intros Hin s capturing acc g Hm; [destruct Hin|].
  assert (Hstep : forall x s', s = String x s' -> item_matches it x = true ->
                    match_here p s' capturing (if capturing then x :: acc else acc)
                    = Some g ->
                    has_char c s = true).
  { intros x s' -> Hit Hrest. simpl.
    destruct Hin as [->|Hin].
    - simpl in Hit. rewrite Hit. reflexivity.
    - rewrite (IH Hin _ _ _ _ Hrest). apply orb_true_r. }
  destruct it; simpl in Hm;
    try (destruct s as [|x s']; [discriminate|];
         match type of Hm with
         | (if ?b then _ else _) = _ =>
             destruct b eqn:E; [|discriminate];
             apply (Hstep x s' eq_refl); [exact E | exact Hm]
         end).
  - destruct Hin as [Habs|Hin]; [discriminate|]. exact (IH Hin _ _ _ _ Hm).
  - destruct Hin as [Habs|Hin]; [discriminate|]. exact (IH Hin _ _ _ _ Hm).
Qed.

Lemma search_needs_char (c : ascii) (p : list item) (s : string) (g : string) :
  In (Chr c) p -> search p s = Some g -> has_char c s = true.
Proof.
  intros Hin. induction s as [|x s IH]; simpl.
  - destruct (match_here p EmptyString false []) eqn:E; [|discriminate].
    intros _. exact (match_here_needs_char c p Hin _ _ _ E).
  - destruct (match_here p (String x s) false []) eqn:E.
    + intros _. exact (match_here_needs_char c p Hin _ _ _ E).
    + intros H. rewrite (IH H). apply orb_true_r.
Qed.

Lemma collect_dates_without_char (c : ascii) (p : list item) (files : list string) :
  In (Chr c) p ->
  Forall (fun f => has_char c f = false) files ->
  collect_dates p files = [].
Proof.
  intros Hin. induction 1 as [|f files Hf _ IH]; simpl; [reflexivity|].
  destruct (search p f) eqn:E; [|exact IH].
  apply (search_needs_char c p f Hin) in E. congruence.
Qed.

(** C4.  Both patterns of [__main__] ask for a backslash after the date, so
    a listing whose names hold none, as the names [bookings_YYYY-MM-DD.csv]
    and [customers_YYYY-MM-DD.csv] that [process_date] reads, yields no date
    at all. *)
Theorem list_raw_dates_skips_convention_names (files : list string) :
  Forall (fun f => has_char backslash f = false) files ->
  list_raw_dates files BOOKING_PATTERN = Some []
  /\ list_raw_dates files CUSTOMER_PATTERN = Some [].
Proof.
  intros H. unfold list_raw_dates. split.
  - destruct (compile BOOKING_PATTERN) as [p|] eqn:E; [|discriminate E].
    rewrite (collect_dates_without_char backslash p); [reflexivity| |exact H].
    vm_compute in E. injection E as <-. simpl. tauto.
  - destruct (compile CUSTOMER_PATTERN) as [p|] eqn:E; [|discriminate E].
    rewrite (collect_dates_without_char backslash p); [reflexivity| |exact H].
    vm_compute in E. injection E as <-. simpl. tauto.
Qed.

Lemma list_raw_dates_skips_convention_names_witness :
  Forall (fun f => has_char backslash f = false)
         [booking_file_name (jan 5); customer_file_name (jan 5)]
  /\ list_raw_dates [booking_file_name (jan 5); customer_file_name (jan 5)]
                    BOOKING_PATTERN = Some []
  /\ list_raw_dates [booking_file_name (jan 5); customer_file_name (jan 5)]
                    CUSTOMER_PATTERN = Some [].
Proof.
  assert (H : Forall (fun f => has_char backslash f = false)
                     [booking_file_name (jan 5); customer_file_name (jan 5)]).
  { repeat constructor. }
  split; [exact H|].
  exact (list_raw_dates_skips_convention_names H).
Defined.

(** The names the patterns do accept carry the backslash, and a name of the
    convention is found once the pattern is [\.csv]. *)
Example list_raw_dates_backslash_name :
  list_raw_dates ["bookings_2024-01-05\.csv"%string; "bookings_2024-02-30\.csv"%string;
                  "notes.txt"%string]
                 BOOKING_PATTERN = Some [jan 5].
Proof. reflexivity. Qed.

Example list_raw_dates_one_backslash :
  list_raw_dates [booking_file_name (jan 5); "notes.txt"%string;
                  booking_file_name (jan 3); booking_file_name (jan 5)]
                 "bookings_(\d{4}-\d{2}-\d{2})\.csv" = Some [jan 3; jan 5].
Proof. reflexivity. Qed.

Lemma patterns_compile :
  compile BOOKING_PATTERN <> None /\ compile CUSTOMER_PATTERN <> None.
Proof. split; discriminate. Qed.

Lemma digit_char_not_backslash (n : Z) : ascii_eqb backslash (digit_char n) = false.
Proof.
  unfold digit_char.
  assert (H : 0 <= n mod 10 < 10) by (apply Z.mod_pos_bound; lia).
  assert (C : n mod 10 = 0 \/ n mod 10 = 1 \/ n mod 10 = 2 \/ n mod 10 = 3
              \/ n mod 10 = 4 \/ n mod 10 = 5 \/ n mod 10 = 6 \/ n mod 10 = 7
              \/ n mod 10 = 8 \/ n mod 10 = 9) by lia.
  repeat (destruct C as [C|C]; [rewrite C; reflexivity|]).
  rewrite C; reflexivity.
Qed.

(** No file name of the convention holds a backslash, whatever the date. *)
Lemma convention_names_without_backslash (d : date) :
  has_char backslash (booking_file_name d) = false
  /\ has_char backslash (customer_file_name d) = false.
Proof.
  unfold booking_file_name, customer_file_name, strftime_ymd.
  split; cbn [has_char String.append string_of_list_ascii];
    rewrite !digit_char_not_backslash; reflexivity.
Qed.



(** ** The watermark store *)

Lemma is_pipeline_row_sentinel :
  is_pipeline_row (Meta.mk PIPELINE_NAME SENTINEL_DATE) = true.
Proof. reflexivity. Qed.

Lemma existsb_filter_nil {A : Type} (f : A -> bool) (l : list A) :
  existsb f l = false <-> filter f l = [].
Proof.
  induction l as [|x l IH]; simpl; [tauto|].
  destruct (f x); simpl; [split; discriminate | exact IH].
Qed.

Lemma insert_if_absent_rows (t : list Meta.row) :
  filter is_pipeline_row (insert_if_absent t)
  = match filter is_pipeline_row t with
    | [] => [Meta.mk PIPELINE_NAME SENTINEL_DATE]
    | rows => rows
    end.
Proof.
  unfold insert_if_absent. destruct (existsb is_pipeline_row t) eqn:E.
  - destruct (filter is_pipeline_row t) eqn:F; [|reflexivity].
    apply existsb_filter_nil in F. congruence.
  - apply existsb_filter_nil in E. rewrite filter_app, E. reflexivity.
Qed.

Lemma insert_if_absent_idem (t : list Meta.row) :
  insert_if_absent (insert_if_absent t) = insert_if_absent t.
Proof.
  unfold insert_if_absent at 1.
  destruct (existsb is_pipeline_row (insert_if_absent t)) eqn:E; [reflexivity|].
  apply existsb_filter_nil in E. rewrite insert_if_absent_rows in E.
  destruct (filter is_pipeline_row t); discriminate.
Qed.

(** What one call does: it answers the first pipeline row, the sentinel when
    there is none, and leaves the table with the conditional insert done. *)
Lemma get_last_processed_date_eq (s : Store) :
  get_last_processed_date s
  = (Ok (match pipeline_rows s with
         | r :: _ => Meta.last_processed_date r
         | [] => SENTINEL_DATE
         end),
     {| metadata := Some (insert_if_absent (created_table s));
        fact_table := fact_table s; scd_table := scd_table s |}).
Proof.
  unfold get_last_processed_date, bind, get_store, put_metadata, pipeline_rows,
    created_table; simpl.
  rewrite insert_if_absent_rows.
  destruct (metadata s) as [t|]; simpl.
  - destruct (filter is_pipeline_row t); reflexivity.
  - reflexivity.
Qed.

Lemma pipeline_rows_after_get (s : Store) :
  pipeline_rows (snd (get_last_processed_date s))
  = match pipeline_rows s with
    | [] => [Meta.mk PIPELINE_NAME SENTINEL_DATE]
    | rows => rows
    end.
Proof.
  rewrite get_last_processed_date_eq. unfold pipeline_rows, created_table; simpl.
  rewrite insert_if_absent_rows. destruct (metadata s); reflexivity.
Qed.

Lemma get_last_processed_date_twice (s : Store) :
  get_last_processed_date (snd (get_last_processed_date s))
  = (fst (get_last_processed_date s), snd (get_last_processed_date s)).
Proof.
  rewrite (get_last_processed_date_eq (snd _)), pipeline_rows_after_get.
  rewrite get_last_processed_date_eq; simpl.
  unfold created_table at 1; simpl. rewrite insert_if_absent_idem.
  destruct (pipeline_rows s); reflexivity.
Qed.

Lemma after_gets_fixed (n : nat) (s : Store) :
  after_gets (S n) s = snd (get_last_processed_date s).
Proof.
  revert s. induction n as [|n IH]; intros s; [reflexivity|].
  change (after_gets (S (S n)) s)
    with (after_gets (S n) (snd (get_last_processed_date s))).
  rewrite IH, get_last_processed_date_twice. reflexivity.
Qed.

Lemma set_date_pipeline_rows (d : date) (t : list Meta.row) :
  filter is_pipeline_row (set_date d t)
  = map (fun r => Meta.mk (Meta.table_name r) d) (filter is_pipeline_row t).
Proof.
  unfold set_date. induction t as [|r t IH]; simpl; [reflexivity|].
  destruct (is_pipeline_row r) eqn:E; simpl.
  - unfold is_pipeline_row in *; simpl. rewrite E. simpl. f_equal. exact IH.
  - rewrite E. exact IH.
Qed.




(** Without the bound on the table the count is kept: a call creates a
    record only when there is none. *)
Lemma get_last_processed_date_count (n : nat) (s : Store) :
  List.length (pipeline_rows (after_gets (S n) s))
  = Nat.max 1 (List.length (pipeline_rows s)).
Proof.
  rewrite after_gets_fixed, pipeline_rows_after_get.
  destruct (pipeline_rows s) as [|r rows]; simpl; [reflexivity|].
  destruct (List.length rows); reflexivity.
Qed.

(** On a table without the pipeline's record the UPDATE changes nothing, so
    the order the program keeps (read first, advance after) matters. *)
Example update_before_init :
  (update_last_processed_date (sample_env true [] (plain_customers [])) (jan 5) ;;;
   get_last_processed_date)
    {| metadata := Some []; fact_table := None; scd_table := None |}
  = (Ok SENTINEL_DATE,
     {| metadata := Some [Meta.mk PIPELINE_NAME SENTINEL_DATE];
        fact_table := None; scd_table := None |}).
Proof. reflexivity. Qed.

(** ** [process_date], step by step *)

(** Once both files are read and step 2 lets the date through, the run is
    the fact overwrite followed by the SCD2 writes, each of which the store
    may refuse. *)
Lemma process_date_steps (env : Env) (d : date) (s : Store)
      (bookings : list Booking.row) (customers : CustomerDF) :
  load_bookings env (booking_path d) = Some bookings ->
  load_customers env (customer_path d) = Some customers ->
  validation_passes env bookings customers = true ->
  process_date env d s
  = let df_final :=
      aggregate_and_merge
        (transform (current_timestamp env d) bookings (customer_rows customers))
        (fact_table s) in
    let updates := with_validity d customers in
    if write_fails env d FactOverwrite
    then (Raise (WriteFailure FactOverwrite), s)
    else match scd_table s with
         | Some scd =>
             if write_fails env d ScdMerge
             then (Raise (WriteFailure ScdMerge), set_fact s df_final)
             else match merge_close scd updates with
                  | None => (Raise MergeConflict, set_fact s df_final)
                  | Some closed =>
                      if write_fails env d ScdAppend
                      then (Raise (WriteFailure ScdAppend),
                            set_scd (set_fact s df_final) closed)
                      else (Ok tt, set_scd (set_fact s df_final) (closed ++ updates))
                  end
         | None =>
             if write_fails env d ScdCreate
             then (Raise (WriteFailure ScdCreate), set_fact s df_final)
             else (Ok tt, set_scd (set_fact s df_final) updates)
         end.
Proof.
  intros Hb Hc Hv. unfold process_date.
  unfold bind at 1. unfold load at 1. rewrite Hb. unfold ret at 1.
  unfold bind at 1. unfold load at 1. rewrite Hc. unfold ret at 1.
  unfold bind at 1.
  assert (Hgate :
    (if PYDEEQU_AVAILABLE env
     then (if negb (run_pydeequ_checks env (verify_bookings env) bookings check_booking)
           then raise (ValueError ("Booking data quality checks failed for date "
                                   ++ strftime_ymd d)%string)
           else ret tt) ;;;
          (if negb (run_pydeequ_checks env (verify_customers env) customers check_customer)
           then raise (ValueError ("Customer data quality checks failed for date "
                                   ++ strftime_ymd d)%string)
           else ret tt)
     else ret tt) s = (Ok tt, s)).
  { unfold validation_passes, run_pydeequ_checks in *.
    destruct (PYDEEQU_AVAILABLE env); simpl in *; [|reflexivity].
    apply andb_true_iff in Hv. destruct Hv as [-> ->]. reflexivity. }
  rewrite Hgate.
  unfold bind, get_store, guarded, put_fact, put_scd, append_scd, raise, ret,
    set_fact, set_scd; simpl.
  destruct (write_fails env d FactOverwrite); [reflexivity|]. simpl.
  destruct (scd_table s) as [scd|]; simpl.
  - destruct (write_fails env d ScdMerge); [reflexivity|].
    destruct (merge_close scd (with_validity d customers)); simpl; [|reflexivity].
    destruct (write_fails env d ScdAppend); reflexivity.
  - destruct (write_fails env d ScdCreate); reflexivity.
Qed.

(** X7.  With both files read, step 2 passed and no write refused,
    [process_date] ends normally and leaves exactly this: the metadata as it
    was, [df_final] as the fact table, and the result of the SCD2 step as
    the dimension table. *)
Lemma process_date_writes (env : Env) (d : date) (s : Store)
      (bookings : list Booking.row) (customers : CustomerDF)
      (t : list Customer.row) :
  load_bookings env (booking_path d) = Some bookings ->
  load_customers env (customer_path d) = Some customers ->
  validation_passes env bookings customers = true ->
  (forall o, write_fails env d o = false) ->
  apply_scd2 d customers (scd_table s) = Some t ->
  process_date env d s
  = (Ok tt,
     {| metadata := metadata s;
        fact_table :=
          Some (aggregate_and_merge
                  (transform (current_timestamp env d) bookings
                             (customer_rows customers))
                  (fact_table s));
        scd_table := Some t |}).
Proof.
  intros Hb Hc Hv Hw Ht.
  rewrite (process_date_steps env d s Hb Hc Hv). cbv zeta.
  rewrite !Hw. unfold apply_scd2 in Ht.
  destruct (scd_table s) as [scd|].
  - destruct (merge_close scd (with_validity d customers)) as [closed|];
      [|discriminate].
    injection Ht as <-. reflexivity.
  - injection Ht as <-. reflexivity.
Qed.

Lemma bind_assoc {A B C : Type} (m : M A) (f : A -> M B) (g : B -> M C) (s : Store) :
  bind (bind m f) g s = bind m (fun x => bind (f x) g) s.
Proof. unfold bind. destruct (m s) as [[a|e] s1]; reflexivity. Qed.

Lemma bind_ext {A B : Type} (m : M A) (f g : A -> M B) (s : Store) :
  (forall a s', f a s' = g a s') -> bind m f s = bind m g s.
Proof. intros H. unfold bind. destruct (m s) as [[a|e] s1]; [apply H | reflexivity]. Qed.

Lemma process_all_app (env : Env) (pre post : list date) (s : Store) :
  process_all env (pre ++ post) s
  = (process_all env pre ;;; process_all env post) s.
Proof.
  revert s. induction pre as [|d pre IH]; intros s; simpl.
  - reflexivity.
  - rewrite bind_assoc. apply bind_ext. intros _ s1.
    rewrite bind_assoc. apply bind_ext. intros _ s2. apply IH.
Qed.

(** ** Validation gating *)

Lemma validation_passes_false (env : Env) (bookings : list Booking.row)
      (customers : CustomerDF) :
  validation_passes env bookings customers = false
  <-> PYDEEQU_AVAILABLE env = true
      /\ (verify_bookings env check_booking bookings = false
          \/ verify_customers env check_customer customers = false).
Proof.
  unfold validation_passes.
  destruct (PYDEEQU_AVAILABLE env), (verify_bookings env check_booking bookings),
    (verify_customers env check_customer customers); simpl;
    intuition discriminate.
Qed.

(** A date that step 2 stops raises before any write. *)
Lemma process_date_validation_failure (env : Env) (d : date)
      (bookings : list Booking.row) (customers : CustomerDF) :
  load_bookings env (booking_path d) = Some bookings ->
  load_customers env (customer_path d) = Some customers ->
  validation_passes env bookings customers = false ->
  exists msg, forall s, process_date env d s = (Raise (ValueError msg), s).
Proof.
  intros Hb Hc Hv. apply validation_passes_false in Hv. destruct Hv as [Hp Hfail].
  unfold process_date.
  destruct (verify_bookings env check_booking bookings) eqn:Eb.
  - destruct Hfail as [Habs|Hcust]; [discriminate|].
    eexists. intros s.
    unfold bind at 1. unfold load at 1. rewrite Hb. unfold ret at 1.
    unfold bind at 1. unfold load at 1. rewrite Hc. unfold ret at 1.
    unfold bind at 1. rewrite Hp. unfold run_pydeequ_checks. rewrite Hp, Eb, Hcust.
    reflexivity.
  - eexists. intros s.
    unfold bind at 1. unfold load at 1. rewrite Hb. unfold ret at 1.
    unfold bind at 1. unfold load at 1. rewrite Hc. unfold ret at 1.
    unfold bind at 1. rewrite Hp. unfold run_pydeequ_checks. rewrite Hp, Eb.
    reflexivity.
Qed.

(** C7.  When PyDeequ is there and the booking suite or the customer suite
    of a date does not end in "Success", [process_date] raises its
    [ValueError] with all three stores as they were: neither the fact
    overwrite nor the SCD2 writes are reached.  The loop of [__main__] stops
    there, so the watermark keeps its value and no later date is tried. *)
Theorem validation_failure_writes_nothing (env : Env) (d : date)
        (bookings : list Booking.row) (customers : CustomerDF) :
  load_bookings env (booking_path d) = Some bookings ->
  load_customers env (customer_path d) = Some customers ->
  PYDEEQU_AVAILABLE env = true ->
  verify_bookings env check_booking bookings = false
  \/ verify_customers env check_customer customers = false ->
  exists msg,
    (forall s, process_date env d s = (Raise (ValueError msg), s))
    /\ (forall s rest, process_all env (d :: rest) s = (Raise (ValueError msg), s))
    /\ (forall pre rest s s',
           process_all env pre s = (Ok tt, s') ->
           process_all env (pre ++ d :: rest) s = (Raise (ValueError msg), s')).
Proof.
  intros Hb Hc Hp Hfail.
  assert (Hpd : exists msg, forall s, process_date env d s = (Raise (ValueError msg), s)).
  { apply (process_date_validation_failure env d Hb Hc).
    apply validation_passes_false. split; assumption. }
  destruct Hpd as [msg Hpd]. exists msg.
  assert (Hall : forall s rest,
             process_all env (d :: rest) s = (Raise (ValueError msg), s)).
  { intros s rest. simpl. unfold bind at 1. rewrite Hpd. reflexivity. }
  split; [exact Hpd|]. split; [exact Hall|].
  intros pre rest s s' Hpre.
  rewrite process_all_app. unfold bind. rewrite Hpre. apply Hall.
Qed.

Lemma validation_failure_writes_nothing_witness :
  exists msg,
    (forall s, process_date (sample_env true negative_amount_bookings one_customer)
                            (jan 5) s = (Raise (ValueError msg), s))
    /\ (forall s rest,
           process_all (sample_env true negative_amount_bookings one_customer)
                       (jan 5 :: rest) s = (Raise (ValueError msg), s))
    /\ (forall pre rest s s',
           process_all (sample_env true negative_amount_bookings one_customer) pre s
           = (Ok tt, s') ->
           process_all (sample_env true negative_amount_bookings one_customer)
                       (pre ++ jan 5 :: rest) s = (Raise (ValueError msg), s')).
Proof.
  apply (@validation_failure_writes_nothing
           (sample_env true negative_amount_bookings one_customer) (jan 5)
           negative_amount_bookings one_customer).
  - reflexivity.
  - reflexivity.
  - reflexivity.
  - left. reflexivity.
Defined.

(** The same batch goes through when PyDeequ is not installed. *)
Example negative_amount_unchecked :
  process_date (sample_env false negative_amount_bookings one_customer) (jan 5)
               empty_store
  = (Ok tt,
     {| metadata := None;
        fact_table := Some [Fact.mk (Some "A"%string) (Some 1) (Some (-50)) (Some 2)];
        scd_table := Some [Customer.mk (Some 1) (Some "ann"%string)
                             (Some "address"%string) (Some "phone"%string)
                             (Some "email"%string) (Some (jan 5)) (Some OPEN_DATE)] |}).
Proof. reflexivity. Qed.

(** ** Grouping and summing *)

Lemma option_eqb_eq {A : Type} (eqb : A -> A -> bool) :
  (forall x y, eqb x y = true <-> x = y) ->
  forall a b : option A, option_eqb eqb a b = true <-> a = b.
Proof.
  intros H [x|] [y|]; simpl; try (split; [discriminate | discriminate]).
  - rewrite H. split; [intros ->; reflexivity | intros E; injection E; auto].
  - tauto.
Qed.

Lemma key_eqb_eq (a b : key) : key_eqb a b = true <-> a = b.
Proof.
  destruct a as [a1 a2], b as [b1 b2]. unfold key_eqb; simpl.
  rewrite andb_true_iff.
  rewrite (option_eqb_eq String.eqb String.eqb_eq).
  rewrite (option_eqb_eq Z.eqb Z.eqb_eq).
  split; [intros [-> ->]; reflexivity | intros E; injection E; auto].
Qed.

Lemma key_eqb_refl (k : key) : key_eqb k k = true.
Proof. apply key_eqb_eq; reflexivity. Qed.

Lemma key_eqb_neq (a b : key) : key_eqb a b = false <-> a <> b.
Proof.
  rewrite <- key_eqb_eq. destruct (key_eqb a b); split; congruence.
Qed.



Lemma sql_add_None_r (a : option Z) : sql_add a None = a.
Proof. destruct a; reflexivity. Qed.



Section GroupSum.
Variable R : Type.
Variable key_of : R -> key.
Variables amount_of quantity_of : R -> option Z.

Local Abbreviation summed := (summed key_of amount_of quantity_of).









End GroupSum.

(** ** Fact aggregation *)









(** ** The transform stage *)


Lemma left_join_In (now : Z) (bookings : list Booking.row)
      (customers : list Customer.row) (b : Booking.row) (t : Z) (c : Customer.row) :
  In (b, t, c) (left_join now bookings customers)
  <-> In b bookings /\ t = now
      /\ ((join_matches b customers = [] /\ c = Customer.null_row)
          \/ In c (join_matches b customers)).
Proof.
  unfold left_join. rewrite in_flat_map. split.
  - intros [b' [Hb' Hin]].
    destruct (join_matches b' customers) as [|m ms] eqn:E.
    + destruct Hin as [Heq|[]]. injection Heq as -> <- <-.
      rewrite E. auto.
    + apply in_map_iff in Hin. destruct Hin as [c' [Heq Hc']].
      injection Heq as -> <- ->. rewrite E. auto.
  - intros (Hb & -> & H). exists b. split; [exact Hb|].
    destruct H as [[E ->]|Hc].
    + rewrite E. left. reflexivity.
    + destruct (join_matches b customers) as [|m ms] eqn:E; [destruct Hc|].
      apply in_map_iff. exists c. split; [reflexivity | exact Hc].
Qed.





(** ** SCD2 *)

Lemma sql_eq_true {A : Type} (eqb : A -> A -> bool) :
  (forall x y, eqb x y = true <-> x = y) ->
  forall a b, sql_eq eqb a b = true <-> exists x, a = Some x /\ b = Some x.
Proof.
  intros H [x|] [y|]; simpl.
  - rewrite H. split.
    + intros ->. exists y. auto.
    + intros [z [E1 E2]]. congruence.
  - split; [discriminate | intros [z [_ E]]; discriminate].
  - split; [discriminate | intros [z [E _]]; discriminate].
  - split; [discriminate | intros [z [E _]]; discriminate].
Qed.

Lemma merge_condition_iff (t u : Customer.row) :
  merge_condition t u = true
  <-> (exists i, Customer.customer_id t = Some i /\ Customer.customer_id u = Some i)
      /\ Customer.valid_to t = Some OPEN_DATE.
Proof.
  unfold merge_condition. rewrite andb_true_iff.
  rewrite (sql_eq_true Z.eqb Z.eqb_eq), (sql_eq_true date_eqb date_eqb_eq).
  split.
  - intros [H [x [Hx Eo]]]. split; [exact H|]. congruence.
  - intros [H Ho]. split; [exact H|]. exists OPEN_DATE. auto.
Qed.

Lemma filter_nil_iff {A : Type} (f : A -> bool) (l : list A) :
  filter f l = [] <-> forall x, In x l -> f x = false.
Proof.
  induction l as [|a l IH]; simpl.
  - split; [intros _ x [] | reflexivity].
  - destruct (f a) eqn:E.
    + split; [discriminate|]. intros H. specialize (H a (or_introl eq_refl)). congruence.
    + rewrite IH. split.
      * intros H x [<-|Hx]; [exact E | apply H; exact Hx].
      * intros H x Hx. apply H. right. exact Hx.
Qed.

(** In a batch with distinct customer_ids at most one row meets the merge
    condition of a target row. *)
Lemma merge_matches_at_most_one (t : Customer.row) (updates : list Customer.row) :
  NoDup (map Customer.customer_id updates) ->
  merge_matches t updates = []
  \/ exists u, merge_matches t updates = [u].
Proof.
  unfold merge_matches. induction updates as [|u updates IH]; simpl; intros Hnd.
  - left. reflexivity.
  - inversion Hnd as [|x l Hnotin Hnd']; subst.
    destruct (merge_condition t u) eqn:E.
    + right. exists u. f_equal. apply filter_nil_iff. intros u' Hu'.
      destruct (merge_condition t u') eqn:E'; [|reflexivity].
      exfalso. apply Hnotin.
      apply merge_condition_iff in E. apply merge_condition_iff in E'.
      destruct E as [[i (Hti & Hui)] _]. destruct E' as [[i' (Hti' & Hui')] _].
      apply in_map_iff. exists u'. split; [congruence | exact Hu'].
    + apply IH. exact Hnd'.
Qed.

Lemma with_validity_ids (d : date) (df : CustomerDF) :
  map Customer.customer_id (with_validity d df)
  = map Customer.customer_id (customer_rows df).
Proof.
  unfold with_validity. rewrite map_map. apply map_ext. intros r.
  destruct (has_valid_from df), (has_valid_to df); reflexivity.
Qed.

Lemma merge_close_distinct (scd updates : list Customer.row) :
  NoDup (map Customer.customer_id updates) ->
  merge_close scd updates = Some (map (closed_by updates) scd).
Proof.
  intros Hnd. unfold merge_close.
  replace (existsb (fun t => Nat.ltb 1 (List.length (merge_matches t updates))) scd)
    with false; [reflexivity|].
  symmetry. apply not_true_is_false. intros H.
  apply existsb_exists in H. destruct H as [t [_ Ht]].
  destruct (merge_matches_at_most_one t updates Hnd) as [E|[u E]];
    rewrite E in Ht; discriminate.
Qed.

Lemma Forall2_map_right {A B : Type} (P : A -> B -> Prop) (f : A -> B) (l : list A) :
  (forall a, In a l -> P a (f a)) -> Forall2 P l (map f l).
Proof.
  induction l as [|a l IH]; simpl; intros H; constructor.
  - apply H. left. reflexivity.
  - apply IH. intros x Hx. apply H. right. exact Hx.
Qed.

(** C2.  On an existing dimension table and a batch with distinct
    customer_ids, the SCD2 step gives the table with its rows in place,
    followed by all incoming rows.  A table row that is open and whose
    customer_id an incoming row has gets that row's valid_from as its
    valid_to; a row that is closed, or whose customer_id no incoming row has,
    stays as it is.  With the open row (5, 2024-01-01, 9999-12-31) and the
    incoming row (5, valid_from 2024-01-05) the table becomes the row
    (5, 2024-01-01, 2024-01-05) and the row (5, 2024-01-05, 9999-12-31). *)
Theorem apply_scd2_spec (d : date) (df : CustomerDF) (scd : list Customer.row) :
  NoDup (map Customer.customer_id (customer_rows df)) ->
  (exists closed,
      apply_scd2 d df (Some scd) = Some (closed ++ with_validity d df)
      /\ Forall2
           (fun t t' =>
              (forall u i, In u (with_validity d df) ->
                           Customer.customer_id u = Some i ->
                           Customer.customer_id t = Some i ->
                           Customer.valid_to t = Some OPEN_DATE ->
                           t' = Customer.set_valid_to t (Customer.valid_from u))
              /\ (Customer.valid_to t <> Some OPEN_DATE -> t' = t)
              /\ ((forall u, In u (with_validity d df) ->
                             Customer.customer_id u = None
                             \/ Customer.customer_id u <> Customer.customer_id t) ->
                  t' = t))
           scd closed)
  /\ apply_scd2 (jan 7) incoming_5 (Some [dim_row 5 (jan 1) OPEN_DATE])
     = Some [dim_row 5 (jan 1) (jan 5); dim_row 5 (jan 5) OPEN_DATE].
Proof.
  intros Hnd. split; [|reflexivity].
  rewrite <- (with_validity_ids d) in Hnd.
  exists (map (closed_by (with_validity d df)) scd). split.
  - unfold apply_scd2. rewrite (merge_close_distinct scd _ Hnd). reflexivity.
  - apply Forall2_map_right. intros t _. unfold closed_by.
    destruct (merge_matches_at_most_one t _ Hnd) as [E|[m E]]; rewrite E.
    + assert (Hno : forall u, In u (with_validity d df) -> merge_condition t u = false).
      { apply filter_nil_iff. exact E. }
      split; [|split; reflexivity].
      intros u i Hu Hui Hti Ho. exfalso.
      assert (Hc : merge_condition t u = true).
      { apply merge_condition_iff. split; [exists i; auto | exact Ho]. }
      rewrite (Hno u Hu) in Hc. discriminate.
    + assert (Hm : In m (merge_matches t (with_validity d df))).
      { rewrite E. left. reflexivity. }
      apply filter_In in Hm. destruct Hm as [Hmin Hmc].
      apply merge_condition_iff in Hmc. destruct Hmc as [[i (Hti & Hmi)] Ho].
      split; [|split].
      * intros u j Hu Huj Htj _.
        assert (Hin : In u (merge_matches t (with_validity d df))).
        { apply filter_In. split; [exact Hu|]. apply merge_condition_iff.
          split; [exists j; auto | exact Ho]. }
        rewrite E in Hin. destruct Hin as [<-|[]]. reflexivity.
      * intros Hclosed. contradiction.
      * intros Hnone. exfalso. destruct (Hnone m Hmin) as [Hn|Hn]; congruence.
Qed.

Lemma apply_scd2_spec_witness :
  NoDup (map Customer.customer_id (customer_rows incoming_5))
  /\ (exists closed,
         apply_scd2 (jan 7) incoming_5 (Some [dim_row 5 (jan 1) OPEN_DATE])
         = Some (closed ++ with_validity (jan 7) incoming_5)
         /\ Forall2
              (fun t t' =>
                 (forall u i, In u (with_validity (jan 7) incoming_5) ->
                              Customer.customer_id u = Some i ->
                              Customer.customer_id t = Some i ->
                              Customer.valid_to t = Some OPEN_DATE ->
                              t' = Customer.set_valid_to t (Customer.valid_from u))
                 /\ (Customer.valid_to t <> Some OPEN_DATE -> t' = t)
                 /\ ((forall u, In u (with_validity (jan 7) incoming_5) ->
                                Customer.customer_id u = None
                                \/ Customer.customer_id u <> Customer.customer_id t) ->
                     t' = t))
              [dim_row 5 (jan 1) OPEN_DATE] closed)
  /\ apply_scd2 (jan 7) incoming_5 (Some [dim_row 5 (jan 1) OPEN_DATE])
     = Some [dim_row 5 (jan 1) (jan 5); dim_row 5 (jan 5) OPEN_DATE].
Proof.
  assert (H : NoDup (map Customer.customer_id (customer_rows incoming_5))).
  { simpl. constructor; [intros [] | constructor]. }
  split; [exact H|].
  exact (@apply_scd2_spec (jan 7) incoming_5 [dim_row 5 (jan 1) OPEN_DATE] H).
Defined.

(** Two rows for one customer in a batch make the merge fail when the
    customer has an open row. *)
Example merge_close_conflict :
  merge_close [dim_row 5 (jan 1) OPEN_DATE]
              [dim_row 5 (jan 5) OPEN_DATE; dim_row 5 (jan 5) OPEN_DATE] = None.
Proof. reflexivity. Qed.

(** ** Failures between the writes of a date *)

(** As C10 states it a failing watermark update would leave the dimension
    table as it was; the table has the date's rows by then. *)
Lemma watermark_failure_after_dimension_write :
  (process_date env_crash (jan 5) ;;; update_last_processed_date env_crash (jan 5))
    fresh_store
  = (Raise (WriteFailure MetadataUpdate),
     {| metadata := metadata fresh_store;
        fact_table := Some [fact_A1 50 2];
        scd_table := Some [Customer.mk (Some 1) (Some "ann"%string)
                             (Some "address"%string) (Some "phone"%string)
                             (Some "email"%string) (Some (jan 5)) (Some OPEN_DATE)] |})
  /\ scd_table fresh_store = None
  /\ scd_table
       (snd ((process_date env_crash (jan 5) ;;;
              update_last_processed_date env_crash (jan 5)) fresh_store))
     <> scd_table fresh_store.
Proof. split; [reflexivity | split; [reflexivity | discriminate]]. Qed.

(** C10, amended.  The fact overwrite comes first.  When the merge of the
    SCD2 step raises, or the first write of a dimension table that does not
    exist yet, the fact table holds the new cumulative rows while the
    dimension table and the watermark are as before.  When the append after
    the merge raises, the dimension table holds the closed rows without the
    new ones.  When the SCD2 step succeeds and the watermark update raises,
    the fact table and the dimension table both hold the new state and only
    the watermark is as before. *)
Theorem process_date_not_atomic (env : Env) (d : date) (s : Store)
        (bookings : list Booking.row) (customers : CustomerDF) :
  load_bookings env (booking_path d) = Some bookings ->
  load_customers env (customer_path d) = Some customers ->
  validation_passes env bookings customers = true ->
  write_fails env d FactOverwrite = false ->
  let df_final :=
    aggregate_and_merge
      (transform (current_timestamp env d) bookings (customer_rows customers))
      (fact_table s) in
  let updates := with_validity d customers in
  let fact_written :=
    {| metadata := metadata s; fact_table := Some df_final;
       scd_table := scd_table s |} in
  (forall scd, scd_table s = Some scd ->
               write_fails env d ScdMerge = true \/ merge_close scd updates = None ->
               exists e, process_date env d s = (Raise e, fact_written))
  /\ (scd_table s = None -> write_fails env d ScdCreate = true ->
      process_date env d s = (Raise (WriteFailure ScdCreate), fact_written))
  /\ (forall scd closed,
         scd_table s = Some scd -> write_fails env d ScdMerge = false ->
         merge_close scd updates = Some closed ->
         write_fails env d ScdAppend = true ->
         process_date env d s
         = (Raise (WriteFailure ScdAppend),
            {| metadata := metadata s; fact_table := Some df_final;
               scd_table := Some closed |}))
  /\ (forall t,
         apply_scd2 d customers (scd_table s) = Some t ->
         write_fails env d ScdMerge = false ->
         write_fails env d ScdAppend = false ->
         write_fails env d ScdCreate = false ->
         process_date env d s
         = (Ok tt, {| metadata := metadata s; fact_table := Some df_final;
                      scd_table := Some t |})
         /\ (write_fails env d MetadataUpdate = true \/ metadata s = None ->
             exists e,
               (process_date env d ;;; update_last_processed_date env d) s
               = (Raise e, {| metadata := metadata s; fact_table := Some df_final;
                              scd_table := Some t |}))).
Proof.
  intros Hb Hc Hv Hf df_final updates fact_written.
  pose proof (process_date_steps env d s Hb Hc Hv) as Hsteps.
  cbv zeta in Hsteps. rewrite Hf in Hsteps.
  fold df_final updates in Hsteps.
  split; [|split; [|split]].
  - intros scd Hscd Hfail. rewrite Hscd in Hsteps. rewrite Hsteps.
    destruct (write_fails env d ScdMerge) eqn:Em.
    + eexists. reflexivity.
    + destruct Hfail as [Habs|Hconf]; [discriminate|].
      rewrite Hconf. eexists. reflexivity.
  - intros Hscd Hfail. rewrite Hscd, Hfail in Hsteps. exact Hsteps.
  - intros scd closed Hscd Hm Hmerge Ha.
    rewrite Hscd, Hm, Hmerge, Ha in Hsteps. exact Hsteps.
  - intros t Ht Hm Ha Hcr.
    assert (Hok : process_date env d s
                  = (Ok tt, {| metadata := metadata s; fact_table := Some df_final;
                               scd_table := Some t |})).
    { rewrite Hsteps. unfold apply_scd2 in Ht. fold updates in Ht.
      destruct (scd_table s) as [scd|].
      - rewrite Hm. destruct (merge_close scd updates) as [closed|]; [|discriminate].
        rewrite Ha. injection Ht as <-. reflexivity.
      - rewrite Hcr. injection Ht as <-. reflexivity. }
    split; [exact Hok|].
    intros Hfail. unfold bind. rewrite Hok.
    unfold update_last_processed_date, bind, get_store, guarded; simpl.
    destruct (metadata s) as [m|] eqn:Emeta.
    + destruct Hfail as [Hw|Habs]; [|discriminate].
      rewrite Hw. eexists. reflexivity.
    + eexists. reflexivity.
Qed.

Lemma process_date_not_atomic_witness :
  load_bookings env_crash (booking_path (jan 5)) = Some one_booking
  /\ load_customers env_crash (customer_path (jan 5)) = Some one_customer
  /\ validation_passes env_crash one_booking one_customer = true
  /\ write_fails env_crash (jan 5) FactOverwrite = false
  /\ exists e,
      (process_date env_crash (jan 5) ;;;
       update_last_processed_date env_crash (jan 5)) fresh_store
      = (Raise e,
         {| metadata := metadata fresh_store;
            fact_table := Some [fact_A1 50 2];
            scd_table := Some (with_validity (jan 5) one_customer) |}).
Proof.
  repeat (split; [reflexivity|]).
  destruct (@process_date_not_atomic env_crash (jan 5) fresh_store one_booking
              one_customer eq_refl eq_refl eq_refl eq_refl) as (_ & _ & _ & H).
  destruct (H (with_validity (jan 5) one_customer) eq_refl eq_refl eq_refl eq_refl)
    as [_ H2].
  apply H2. left. reflexivity.
Defined.

(** ** Re-running a date *)









Lemma with_validity_defaults (d : date) (df : CustomerDF) (u : Customer.row) :
  has_valid_from df = false -> has_valid_to df = false ->
  In u (with_validity d df) ->
  Customer.valid_from u = Some d /\ Customer.valid_to u = Some OPEN_DATE.
Proof.
  intros Hf Ht Hu. unfold with_validity in Hu. rewrite Hf, Ht in Hu.
  apply in_map_iff in Hu. destruct Hu as [r [<- _]]. split; reflexivity.
Qed.







(** The same through the loop of [__main__]: the watermark update fails
    after the date was written, the next run takes the date again. *)
Example rerun_after_crash :
  process_all env_crash [jan 5] fresh_store
  = (Raise (WriteFailure MetadataUpdate), after_first_run)
  /\ pipeline_rows after_first_run = [Meta.mk PIPELINE_NAME SENTINEL_DATE]
  /\ process_all env_ok [jan 5] after_first_run
     = (Ok tt, {| metadata := Some [Meta.mk PIPELINE_NAME (jan 5)];
                  fact_table := fact_table after_rerun;
                  scd_table := scd_table after_rerun |})
  /\ process_all env_ok [jan 5] fresh_store
     = (Ok tt, {| metadata := Some [Meta.mk PIPELINE_NAME (jan 5)];
                  fact_table := fact_table after_first_run;
                  scd_table := scd_table after_first_run |}).
Proof. repeat split. Qed.



(** ** The run as a whole *)

(** X5.  With both directories holding files named by the convention, and
    nothing else, [__main__] reads the watermark and finds no pending date,
    whatever the watermark is: it ends normally with the stores as they
    were, the metadata record created if it was not there. *)
Lemma main_finds_nothing (env : Env) (s : Store) (booked arrived : list date) :
  ls env BOOKING_RAW_DIR = map booking_file_name booked ->
  ls env CUSTOMER_RAW_DIR = map customer_file_name arrived ->
  main env s = (Ok tt, after_gets 1 s).
Proof.
  intros Hb Hc. unfold main. unfold bind at 1.
  rewrite get_last_processed_date_eq, Hb, Hc.
  unfold list_raw_dates.
  destruct (compile BOOKING_PATTERN) as [pb|] eqn:Eb; [|discriminate Eb].
  destruct (compile CUSTOMER_PATTERN) as [pc|] eqn:Ec; [|discriminate Ec].
  rewrite (collect_dates_without_char backslash pb),
          (collect_dates_without_char backslash pc).
  - simpl. rewrite get_last_processed_date_eq. reflexivity.
  - vm_compute in Ec. injection Ec as <-. simpl. tauto.
  - apply Forall_forall. intros f Hf. apply in_map_iff in Hf.
    destruct Hf as [d [<- _]]. apply convention_names_without_backslash.
  - vm_compute in Eb. injection Eb as <-. simpl. tauto.
  - apply Forall_forall. intros f Hf. apply in_map_iff in Hf.
    destruct Hf as [d [<- _]]. apply convention_names_without_backslash.
Qed.

(* ================================================================= *)
(** * Further properties of the code *)

(** ** Dates as text *)

Lemma digit_val_digit_char (n : Z) : digit_val (digit_char n) = n mod 10.
Proof.
  unfold digit_char.
  assert (H : 0 <= n mod 10 < 10) by (apply Z.mod_pos_bound; lia).
  assert (C : n mod 10 = 0 \/ n mod 10 = 1 \/ n mod 10 = 2 \/ n mod 10 = 3
              \/ n mod 10 = 4 \/ n mod 10 = 5 \/ n mod 10 = 6 \/ n mod 10 = 7
              \/ n mod 10 = 8 \/ n mod 10 = 9) by lia.
  repeat (destruct C as [C|C]; [rewrite C; reflexivity|]).
  rewrite C; reflexivity.
Qed.

Lemma is_digit_digit_char (n : Z) : is_digit (digit_char n) = true.
Proof.
  unfold digit_char.
  assert (H : 0 <= n mod 10 < 10) by (apply Z.mod_pos_bound; lia).
  assert (C : n mod 10 = 0 \/ n mod 10 = 1 \/ n mod 10 = 2 \/ n mod 10 = 3
              \/ n mod 10 = 4 \/ n mod 10 = 5 \/ n mod 10 = 6 \/ n mod 10 = 7
              \/ n mod 10 = 8 \/ n mod 10 = 9) by lia.
  repeat (destruct C as [C|C]; [rewrite C; reflexivity|]).
  rewrite C; reflexivity.
Qed.

Lemma digit_val_range (c : ascii) :
  is_digit c = true ->
  0 <= digit_val c <= 9 /\ digit_char (digit_val c) = c.
Proof.
  destruct c as [b0 b1 b2 b3 b4 b5 b6 b7].
  destruct b0, b1, b2, b3, b4, b5, b6, b7; intros H;
    try discriminate H; (split; [vm_compute; split; discriminate | reflexivity]).
Qed.

Lemma valid_date_bounds (y m d : Z) :
  valid_date y m d = true ->
  1 <= y <= 9999 /\ 1 <= m <= 12 /\ 1 <= d <= 31.
Proof.
  unfold valid_date. rewrite !andb_true_iff, !Z.leb_le.
  intros [[[[[Hy1 Hy2] Hm1] Hm2] Hd1] Hd2].
  assert (days_in_month y m <= 31).
  { unfold days_in_month.
    destruct (m =? 2); [destruct (is_leap y); lia|].
    destruct ((m =? 4) || (m =? 6) || (m =? 9) || (m =? 11)); lia. }
  lia.
Qed.

Lemma strptime_strftime_digits (y m dd : Z) :
  0 <= y <= 9999 -> 0 <= m <= 99 -> 0 <= dd <= 99 ->
  strptime_ymd (strftime_ymd (mkdate y m dd))
  = if valid_date y m dd then Some (mkdate y m dd) else None.
Proof.
  intros By Bm Bd.
  unfold strptime_ymd, strftime_ymd. rewrite list_ascii_of_string_of_list_ascii.
  cbn [forallb year month day]. rewrite !is_digit_digit_char.
  rewrite !digit_val_digit_char.
  replace (1000 * ((y / 1000) mod 10) + 100 * ((y / 100) mod 10)
           + 10 * ((y / 10) mod 10) + y mod 10) with y
    by (Z.to_euclidean_division_equations; lia).
  replace (10 * ((m / 10) mod 10) + m mod 10) with m
    by (Z.to_euclidean_division_equations; lia).
  replace (10 * ((dd / 10) mod 10) + dd mod 10) with dd
    by (Z.to_euclidean_division_equations; lia).
  reflexivity.
Qed.

(** X1.  A date that exists, written by [strftime("%Y-%m-%d")] (four-digit
    year) and read back by [strptime(..., "%Y-%m-%d")], is the same date. *)
Theorem strptime_strftime (d : date) :
  valid_date (year d) (month d) (day d) = true ->
  1000 <= year d ->
  strptime_ymd (strftime_ymd d) = Some d.
Proof.
  intros Hv Hy. destruct d as [y m dd]. cbv [year month day] in *.
  destruct (valid_date_bounds _ _ _ Hv) as (By & Bm & Bd).
  rewrite strptime_strftime_digits by lia.
  rewrite Hv. reflexivity.
Qed.

Lemma strptime_strftime_witness :
  valid_date (year (jan 5)) (month (jan 5)) (day (jan 5)) = true
  /\ 1000 <= year (jan 5)
  /\ strptime_ymd (strftime_ymd (jan 5)) = Some (jan 5).
Proof.
  split; [reflexivity|]. split; [simpl; lia|].
  apply strptime_strftime; [reflexivity | simpl; lia].
Defined.

Lemma digit_char_of (n : Z) (c : ascii) :
  is_digit c = true -> n mod 10 = digit_val c -> digit_char n = c.
Proof.
  intros Hc Hn. destruct (digit_val_range c Hc) as [Hr Hback].
  rewrite <- Hback. unfold digit_char.
  rewrite Hn. rewrite (Z.mod_small (digit_val c) 10) by lia. reflexivity.
Qed.

(** X2.  What [strptime(..., "%Y-%m-%d")] accepts is a date that exists,
    and (four-digit year) [strftime("%Y-%m-%d")] writes it back as the text
    it was read from.  So no text of an impossible date, such as a 30th of
    February, is accepted. *)
Theorem strftime_strptime (text : string) (d : date) :
  strptime_ymd text = Some d ->
  1000 <= year d ->
  valid_date (year d) (month d) (day d) = true /\ strftime_ymd d = text.
Proof.
  unfold strptime_ymd. intros H Hy.
  rewrite <- (string_of_list_ascii_of_string text).
  destruct (list_ascii_of_string text)
    as [|y1 [|y2 [|y3 [|y4 [|s1 [|m1 [|m2 [|s2 [|d1 [|d2 [|x l]]]]]]]]]]];
    try discriminate H.
  destruct (forallb is_digit [y1; y2; y3; y4; m1; m2; d1; d2]
            && ascii_eqb s1 "-" && ascii_eqb s2 "-") eqn:E; [|discriminate H].
  apply andb_true_iff in E. destruct E as [E Hs2].
  apply andb_true_iff in E. destruct E as [E Hs1].
  apply ascii_eqb_eq in Hs1, Hs2. subst s1 s2.
  cbn [forallb] in E. rewrite !andb_true_iff in E.
  destruct E as (Hy1 & Hy2 & Hy3 & Hy4 & Hm1 & Hm2 & Hd1 & Hd2 & _).
  match type of H with
  | (if valid_date ?y ?m ?dd then _ else _) = _ =>
      destruct (valid_date y m dd) eqn:Hv; [|discriminate H]
  end.
  assert (Hd : d = mkdate
                     (1000 * digit_val y1 + 100 * digit_val y2 + 10 * digit_val y3
                      + digit_val y4)
                     (10 * digit_val m1 + digit_val m2)
                     (10 * digit_val d1 + digit_val d2)) by congruence.
  clear H. subst d. cbv [year month day] in *. split; [exact Hv|].
  destruct (digit_val_range y1 Hy1) as [Ry1 _].
  destruct (digit_val_range y2 Hy2) as [Ry2 _].
  destruct (digit_val_range y3 Hy3) as [Ry3 _].
  destruct (digit_val_range y4 Hy4) as [Ry4 _].
  destruct (digit_val_range m1 Hm1) as [Rm1 _].
  destruct (digit_val_range m2 Hm2) as [Rm2 _].
  destruct (digit_val_range d1 Hd1) as [Rd1 _].
  destruct (digit_val_range d2 Hd2) as [Rd2 _].
  unfold strftime_ymd. cbv [year month day].
  set (y := 1000 * digit_val y1 + 100 * digit_val y2 + 10 * digit_val y3
            + digit_val y4) in *.
  set (m := 10 * digit_val m1 + digit_val m2) in *.
  set (dd := 10 * digit_val d1 + digit_val d2) in *.
  rewrite (digit_char_of (y / 1000) y1 Hy1)
    by (subst y; Z.to_euclidean_division_equations; lia).
  rewrite (digit_char_of (y / 100) y2 Hy2)
    by (subst y; Z.to_euclidean_division_equations; lia).
  rewrite (digit_char_of (y / 10) y3 Hy3)
    by (subst y; Z.to_euclidean_division_equations; lia).
  rewrite (digit_char_of y y4 Hy4)
    by (subst y; Z.to_euclidean_division_equations; lia).
  rewrite (digit_char_of (m / 10) m1 Hm1)
    by (subst m; Z.to_euclidean_division_equations; lia).
  rewrite (digit_char_of m m2 Hm2)
    by (subst m; Z.to_euclidean_division_equations; lia).
  rewrite (digit_char_of (dd / 10) d1 Hd1)
    by (subst dd; Z.to_euclidean_division_equations; lia).
  rewrite (digit_char_of dd d2 Hd2)
    by (subst dd; Z.to_euclidean_division_equations; lia).
  reflexivity.
Qed.

Lemma strftime_strptime_witness :
  strptime_ymd "2024-02-29" = Some (mkdate 2024 2 29)
  /\ 1000 <= year (mkdate 2024 2 29)
  /\ valid_date 2024 2 29 = true
  /\ strftime_ymd (mkdate 2024 2 29) = "2024-02-29"%string.
Proof.
  split; [reflexivity|]. split; [simpl; lia|].
  apply (@strftime_strptime "2024-02-29" (mkdate 2024 2 29));
    [reflexivity | simpl; lia].
Defined.

(** ** The names the patterns accept *)

Lemma match_here_chr (x : ascii) (p : list item) (s : string) (capturing : bool)
      (acc : list ascii) :
  match_here (Chr x :: p) (String x s) capturing acc
  = match_here p s capturing (if capturing then x :: acc else acc).
Proof.
  cbn [match_here item_matches].
  replace (ascii_eqb x x) with true; [reflexivity|].
  symmetry. apply ascii_eqb_eq. reflexivity.
Qed.

Lemma match_here_digit (c : ascii) (p : list item) (s : string) (capturing : bool)
      (acc : list ascii) :
  is_digit c = true ->
  match_here (Digit :: p) (String c s) capturing acc
  = match_here p s capturing (if capturing then c :: acc else acc).
Proof. intros H. cbn [match_here item_matches]. rewrite H. reflexivity. Qed.

Lemma match_here_any (c : ascii) (p : list item) (s : string) (capturing : bool)
      (acc : list ascii) :
  c <> newline ->
  match_here (AnyChar :: p) (String c s) capturing acc
  = match_here p s capturing (if capturing then c :: acc else acc).
Proof.
  intros H. cbn [match_here item_matches].
  destruct (ascii_eqb c newline) eqn:E; [|reflexivity].
  apply ascii_eqb_eq in E. contradiction.
Qed.

Lemma match_here_group (p : list item) (s : string) (capturing : bool)
      (acc : list ascii) :
  match_here (GroupOpen :: p) s capturing acc = match_here p s true acc
  /\ match_here (GroupClose :: p) s capturing acc = match_here p s false acc.
Proof. split; reflexivity. Qed.

Lemma search_here (p : list item) (s g : string) :
  match_here p s false [] = Some g -> search p s = Some g.
Proof. intros H. destruct s; simpl; rewrite H; reflexivity. Qed.

(** X3.  What [BOOKING_PATTERN] does find: from the one name
    [bookings_YYYY-MM-DD], a backslash, any character but a newline, [csv],
    [list_raw_dates] returns the date of the name, for every date that exists
    (four-digit year). *)
Theorem list_raw_dates_backslash_names (d : date) (c : ascii) :
  valid_date (year d) (month d) (day d) = true ->
  1000 <= year d ->
  c <> newline ->
  list_raw_dates [backslash_name d c] BOOKING_PATTERN = Some [d].
Proof.
  intros Hv Hy Hc. unfold list_raw_dates.
  destruct (compile BOOKING_PATTERN) as [p|] eqn:E; [|discriminate E].
  vm_compute in E. injection E as <-.
  match goal with
  | |- context [collect_dates ?p _] =>
      assert (Hs : search p (backslash_name d c) = Some (strftime_ymd d))
  end.
  { apply search_here. unfold backslash_name, strftime_ymd.
    cbn [String.append string_of_list_ascii].
    change backslash with "\"%char.
    rewrite !match_here_chr. rewrite (proj1 (match_here_group _ _ _ _)).
    rewrite !match_here_digit by apply is_digit_digit_char.
    rewrite match_here_chr.
    rewrite !match_here_digit by apply is_digit_digit_char.
    rewrite match_here_chr.
    rewrite !match_here_digit by apply is_digit_digit_char.
    rewrite (proj2 (match_here_group _ _ _ _)).
    rewrite match_here_chr, (match_here_any _ _ _ _ Hc), !match_here_chr.
    reflexivity. }
  cbn [collect_dates]. rewrite Hs.
  destruct d as [y m dd]. cbv [year month day] in Hv, Hy.
  destruct (valid_date_bounds _ _ _ Hv) as (By & Bm & Bd).
  rewrite strptime_strftime_digits by lia. rewrite Hv. reflexivity.
Qed.

Lemma list_raw_dates_backslash_names_witness :
  valid_date (year (jan 5)) (month (jan 5)) (day (jan 5)) = true
  /\ 1000 <= year (jan 5)
  /\ "."%char <> newline
  /\ list_raw_dates [backslash_name (jan 5) "."] BOOKING_PATTERN = Some [jan 5].
Proof.
  split; [reflexivity|]. split; [simpl; lia|]. split; [discriminate|].
  apply list_raw_dates_backslash_names; [reflexivity | simpl; lia | discriminate].
Defined.


Lemma main_finds_nothing_witness :
  ls (listing_env [booking_file_name (jan 5)] [customer_file_name (jan 5)])
     BOOKING_RAW_DIR = map booking_file_name [jan 5]
  /\ ls (listing_env [booking_file_name (jan 5)] [customer_file_name (jan 5)])
        CUSTOMER_RAW_DIR = map customer_file_name [jan 5]
  /\ main (listing_env [booking_file_name (jan 5)] [customer_file_name (jan 5)])
          empty_store = (Ok tt, after_gets 1 empty_store).
Proof.
  split; [reflexivity|]. split; [reflexivity|].
  apply (@main_finds_nothing
           (listing_env [booking_file_name (jan 5)] [customer_file_name (jan 5)])
           empty_store [jan 5] [jan 5]); reflexivity.
Defined.

(** ** The order of the loop *)

Lemma date_le_neq_lt (a b : date) : date_le a b -> a <> b -> date_lt a b.
Proof.
  unfold date_le, date_lt, date_leb. intros H Hne.
  apply orb_true_iff in H. destruct H as [H|H]; [exact H|].
  apply date_eqb_eq in H. contradiction.
Qed.

Lemma sorted_NoDup_strict (l : list date) :
  StronglySorted date_le l -> NoDup l -> StronglySorted date_lt l.
Proof.
  induction 1 as [|a l Hs IH Ha]; intros Hnd; constructor.
  - apply IH. inversion Hnd; assumption.
  - inversion Hnd as [|x xs Hnotin Hnd']; subst.
    rewrite Forall_forall in *. intros x Hx.
    apply date_le_neq_lt; [apply Ha, Hx|].
    intros ->. contradiction.
Qed.

(** X6.  From a duplicate-free list of booking dates, as [list_raw_dates]
    returns it, the pending dates come in strictly ascending order and each
    is after the watermark: the loop of [__main__] hands
    [update_last_processed_date] a later date at every turn. *)
Theorem pending_dates_strictly_ascending (booking_dates customer_dates : list date)
        (w : date) :
  NoDup booking_dates ->
  StronglySorted date_lt (pending_dates booking_dates customer_dates w)
  /\ Forall (date_lt w) (pending_dates booking_dates customer_dates w).
Proof.
  intros Hnd. unfold pending_dates. split.
  - apply sorted_NoDup_strict; [apply sorted_ascending|].
    eapply Permutation_NoDup; [apply Permutation_sym, sorted_perm|].
    apply NoDup_filter, Hnd.
  - apply Forall_forall. intros d Hd.
    apply sorted_In, filter_In in Hd. destruct Hd as [_ Hd].
    apply andb_true_iff in Hd. apply Hd.
Qed.

Lemma pending_dates_strictly_ascending_witness :
  NoDup [jan 3; jan 1; jan 2]
  /\ StronglySorted date_lt (pending_dates [jan 3; jan 1; jan 2] [jan 2; jan 3] (jan 1))
  /\ Forall (date_lt (jan 1)) (pending_dates [jan 3; jan 1; jan 2] [jan 2; jan 3] (jan 1)).
Proof.
  assert (H : NoDup [jan 3; jan 1; jan 2]).
  { repeat constructor; simpl; intuition discriminate. }
  split; [exact H|].
  exact (@pending_dates_strictly_ascending [jan 3; jan 1; jan 2] [jan 2; jan 3]
           (jan 1) H).
Defined.

(** ** [process_date] and the stores *)

Lemma process_date_writes_witness :
  load_bookings env_ok (booking_path (jan 5)) = Some one_booking
  /\ load_customers env_ok (customer_path (jan 5)) = Some one_customer
  /\ validation_passes env_ok one_booking one_customer = true
  /\ (forall o, write_fails env_ok (jan 5) o = false)
  /\ apply_scd2 (jan 5) one_customer (scd_table after_first_run)
     = Some [customer_1 (jan 5) (jan 5); customer_1 (jan 5) OPEN_DATE]
  /\ process_date env_ok (jan 5) after_first_run
     = (Ok tt,
        {| metadata := metadata after_first_run;
           fact_table :=
             Some (aggregate_and_merge
                     (transform (current_timestamp env_ok (jan 5)) one_booking
                                (customer_rows one_customer))
                     (fact_table after_first_run));
           scd_table := Some [customer_1 (jan 5) (jan 5);
                              customer_1 (jan 5) OPEN_DATE] |}).
Proof.
  repeat (split; [reflexivity|]).
  apply (@process_date_writes env_ok (jan 5) after_first_run one_booking
           one_customer); reflexivity.
Defined.

Lemma process_date_no_bookings (env : Env) (d : date) (s : Store) :
  load_bookings env (booking_path d) = None ->
  process_date env d s = (Raise (PathNotFound (booking_path d)), s).
Proof.
  intros H. unfold process_date. unfold bind at 1. unfold load at 1.
  rewrite H. reflexivity.
Qed.

Lemma process_date_no_customers (env : Env) (d : date) (s : Store)
      (bookings : list Booking.row) :
  load_bookings env (booking_path d) = Some bookings ->
  load_customers env (customer_path d) = None ->
  process_date env d s = (Raise (PathNotFound (customer_path d)), s).
Proof.
  intros Hb Hc. unfold process_date.
  unfold bind at 1. unfold load at 1. rewrite Hb. unfold ret at 1.
  unfold bind at 1. unfold load at 1. rewrite Hc. reflexivity.
Qed.

(** The ways a run of a date can go: a file is missing, step 2 stops the
    date, or both files are read and step 2 passes. *)
Lemma process_date_cases (env : Env) (d : date) (s : Store) :
  (exists path, process_date env d s = (Raise (PathNotFound path), s))
  \/ (PYDEEQU_AVAILABLE env = true
      /\ exists msg, process_date env d s = (Raise (ValueError msg), s))
  \/ (exists bookings customers,
         load_bookings env (booking_path d) = Some bookings
         /\ load_customers env (customer_path d) = Some customers
         /\ validation_passes env bookings customers = true).
Proof.
  destruct (load_bookings env (booking_path d)) as [bookings|] eqn:Hb.
  - destruct (load_customers env (customer_path d)) as [customers|] eqn:Hc.
    + destruct (validation_passes env bookings customers) eqn:Hv.
      * right. right. exists bookings, customers. auto.
      * right. left.
        destruct (process_date_validation_failure env d Hb Hc Hv) as [msg Hm].
        apply validation_passes_false in Hv. split; [apply Hv|].
        exists msg. apply Hm.
    + left. eexists. apply (process_date_no_customers env d s Hb Hc).
  - left. eexists. apply (process_date_no_bookings env d s Hb).
Qed.

(** Whatever happens, [process_date] leaves the metadata table alone. *)
Lemma process_date_shape (env : Env) (d : date) (s : Store) :
  exists r f c,
    process_date env d s
    = (r, {| metadata := metadata s; fact_table := f; scd_table := c |}).
Proof.
  destruct (process_date_cases env d s)
    as [[path H]|[[_ [msg H]]|(bookings & customers & Hb & Hc & Hv)]].
  - rewrite H. destruct s. eexists _, _, _. reflexivity.
  - rewrite H. destruct s. eexists _, _, _. reflexivity.
  - rewrite (process_date_steps env d s Hb Hc Hv). cbv zeta.
    unfold set_scd, set_fact. cbn [metadata fact_table scd_table].
    destruct (write_fails env d FactOverwrite);
      [destruct s; eexists _, _, _; reflexivity|].
    destruct (scd_table s) as [scd|].
    + destruct (write_fails env d ScdMerge); [eexists _, _, _; reflexivity|].
      destruct (merge_close scd (with_validity d customers));
        [|eexists _, _, _; reflexivity].
      destruct (write_fails env d ScdAppend); eexists _, _, _; reflexivity.
    + destruct (write_fails env d ScdCreate); eexists _, _, _; reflexivity.
Qed.

(** X8.  A missing file stops the date before anything is written: when
    the booking file or the customer file of the date cannot be read,
    [process_date] raises for that path with the three stores as they were,
    and the loop of [__main__] ends there whatever dates follow. *)
Theorem process_date_missing_file (env : Env) (d : date) (s : Store)
        (rest : list date) :
  load_bookings env (booking_path d) = None
  \/ load_customers env (customer_path d) = None ->
  exists path,
    (path = booking_path d \/ path = customer_path d)
    /\ process_date env d s = (Raise (PathNotFound path), s)
    /\ process_all env (d :: rest) s = (Raise (PathNotFound path), s).
Proof.
  intros Hmiss.
  assert (H : exists path, (path = booking_path d \/ path = customer_path d)
                           /\ process_date env d s = (Raise (PathNotFound path), s)).
  { destruct (load_bookings env (booking_path d)) as [bookings|] eqn:Hb.
    - destruct Hmiss as [Habs|Hc]; [discriminate|].
      exists (customer_path d). split; [right; reflexivity|].
      apply (process_date_no_customers env d s Hb Hc).
    - exists (booking_path d). split; [left; reflexivity|].
      apply (process_date_no_bookings env d s Hb). }
  destruct H as [path [Hpath Hrun]]. exists path.
  split; [exact Hpath|]. split; [exact Hrun|].
  cbn [process_all]. unfold bind at 1. rewrite Hrun. reflexivity.
Qed.

Lemma process_date_missing_file_witness :
  (load_bookings (without_bookings env_ok) (booking_path (jan 5)) = None
   \/ load_customers (without_bookings env_ok) (customer_path (jan 5)) = None)
  /\ exists path,
      (path = booking_path (jan 5) \/ path = customer_path (jan 5))
      /\ process_date (without_bookings env_ok) (jan 5) after_first_run
         = (Raise (PathNotFound path), after_first_run)
      /\ process_all (without_bookings env_ok) [jan 5; jan 6] after_first_run
         = (Raise (PathNotFound path), after_first_run).
Proof.
  split; [left; reflexivity|].
  apply (@process_date_missing_file (without_bookings env_ok) (jan 5)
           after_first_run [jan 6]).
  left. reflexivity.
Defined.

(** X9.  [process_date] never writes the metadata table: however it ends,
    the table, and with it the watermark, is as before.  Only
    [update_last_processed_date] moves the watermark. *)
Theorem process_date_keeps_metadata (env : Env) (d : date) (s : Store) :
  metadata (snd (process_date env d s)) = metadata s
  /\ watermark (snd (process_date env d s)) = watermark s
  /\ other_rows (snd (process_date env d s)) = other_rows s.
Proof.
  destruct (process_date_shape env d s) as (r & f & c & H).
  rewrite H. cbn [snd].
  unfold watermark, other_rows, pipeline_rows, created_table.
  cbn [metadata]. repeat split.
Qed.

(** X10.  Without PyDeequ on the cluster no date is ever stopped by the
    data quality step: [process_date] does not raise its [ValueError],
    whatever the validation engine would have answered. *)
Theorem process_date_unchecked (env : Env) (d : date) (s s' : Store) (msg : string) :
  PYDEEQU_AVAILABLE env = false ->
  process_date env d s <> (Raise (ValueError msg), s').
Proof.
  intros Hp Hrun.
  destruct (process_date_cases env d s)
    as [[path H]|[[Habs _]|(bookings & customers & Hb & Hc & Hv)]].
  - rewrite H in Hrun. discriminate Hrun.
  - congruence.
  - rewrite (process_date_steps env d s Hb Hc Hv) in Hrun. cbv zeta in Hrun.
    destruct (write_fails env d FactOverwrite); [discriminate Hrun|].
    destruct (scd_table s) as [scd|].
    + destruct (write_fails env d ScdMerge); [discriminate Hrun|].
      destruct (merge_close scd (with_validity d customers));
        [|discriminate Hrun].
      destruct (write_fails env d ScdAppend); discriminate Hrun.
    + destruct (write_fails env d ScdCreate); discriminate Hrun.
Qed.

Lemma process_date_unchecked_witness :
  PYDEEQU_AVAILABLE (sample_env false negative_amount_bookings one_customer) = false
  /\ process_date (sample_env false negative_amount_bookings one_customer) (jan 5)
                  empty_store
     <> (Raise (ValueError "Booking data quality checks failed for date 2024-01-05"),
         empty_store).
Proof.
  split; [reflexivity|].
  apply process_date_unchecked. reflexivity.
Defined.

(** X11.  The loop of [__main__] stops at the first date that fails, in
    [process_date] or in the watermark update: the run ends with that
    exception and with the stores as the failing date left them, and the
    dates after it are not touched. *)
Theorem process_all_fail_fast (env : Env) (pre rest : list date) (d : date)
        (s s1 s2 : Store) (e : exn) :
  process_all env pre s = (Ok tt, s1) ->
  (process_date env d ;;; update_last_processed_date env d) s1 = (Raise e, s2) ->
  process_all env (pre ++ d :: rest) s = (Raise e, s2)
  /\ forall rest', process_all env (pre ++ d :: rest') s
                   = process_all env (pre ++ d :: rest) s.
Proof.
  intros Hpre Hd.
  assert (H : forall l, process_all env (pre ++ d :: l) s = (Raise e, s2)).
  { intros l. rewrite process_all_app. unfold bind at 1. rewrite Hpre.
    cbn [process_all]. rewrite <- bind_assoc.
    unfold bind at 1. rewrite Hd. reflexivity. }
  split; [apply H|]. intros rest'. rewrite !H. reflexivity.
Qed.

Lemma process_all_fail_fast_witness :
  process_all env_crash [] fresh_store = (Ok tt, fresh_store)
  /\ (process_date env_crash (jan 5) ;;; update_last_processed_date env_crash (jan 5))
       fresh_store = (Raise (WriteFailure MetadataUpdate), after_first_run)
  /\ process_all env_crash ([] ++ jan 5 :: [jan 6; jan 7]) fresh_store
     = (Raise (WriteFailure MetadataUpdate), after_first_run).
Proof.
  split; [reflexivity|]. split; [reflexivity|].
  apply (@process_all_fail_fast env_crash [] [jan 6; jan 7] (jan 5) fresh_store
           fresh_store after_first_run (WriteFailure MetadataUpdate));
    reflexivity.
Defined.

(** ** The watermark through a run *)

Lemma update_cases (env : Env) (d : date) (s : Store) :
  (exists e, update_last_processed_date env d s = (Raise e, s))
  \/ (exists t, metadata s = Some t
                /\ update_last_processed_date env d s
                   = (Ok tt, {| metadata := Some (set_date d t);
                                fact_table := fact_table s;
                                scd_table := scd_table s |})).
Proof.
  unfold update_last_processed_date, bind, get_store, guarded, put_metadata, raise.
  destruct (metadata s) as [t|] eqn:E.
  - destruct (write_fails env d MetadataUpdate).
    + left. eexists. reflexivity.
    + right. exists t. split; reflexivity.
  - left. eexists. reflexivity.
Qed.

Lemma set_date_other_rows (d : date) (t : list Meta.row) :
  filter (fun r => negb (is_pipeline_row r)) (set_date d t)
  = filter (fun r => negb (is_pipeline_row r)) t.
Proof.
  unfold set_date. induction t as [|r t IH]; simpl; [reflexivity|].
  destruct (is_pipeline_row r) eqn:E; simpl.
  - unfold is_pipeline_row in *. simpl. rewrite E. simpl. exact IH.
  - rewrite E. simpl. f_equal. exact IH.
Qed.

(** X12.  [update_last_processed_date] either fails and changes nothing
    (the table is missing, or the store refuses the write), or sets the date
    of every record of this pipeline to the new date and nothing else: the
    records of other pipelines, the number of records, the fact table and
    the dimension table are as before.  It creates no record: on a table
    without one the watermark stays the sentinel. *)
Theorem update_last_processed_date_effect (env : Env) (d : date) (s : Store) :
  (exists e, update_last_processed_date env d s = (Raise e, s))
  \/ (exists s',
         update_last_processed_date env d s = (Ok tt, s')
         /\ Forall (fun r => Meta.last_processed_date r = d) (pipeline_rows s')
         /\ List.length (pipeline_rows s') = List.length (pipeline_rows s)
         /\ other_rows s' = other_rows s
         /\ fact_table s' = fact_table s
         /\ scd_table s' = scd_table s
         /\ watermark s' = match pipeline_rows s with
                           | [] => SENTINEL_DATE
                           | _ => d
                           end).
Proof.
  destruct (update_cases env d s) as [Hfail|[t [Hm Hok]]]; [left; exact Hfail|].
  right. eexists. split; [exact Hok|].
  unfold watermark, other_rows, pipeline_rows, created_table.
  cbn [metadata fact_table scd_table]. rewrite Hm, set_date_pipeline_rows.
  split; [|split; [|split; [|split; [|split]]]].
  - apply Forall_forall. intros r Hr. apply in_map_iff in Hr.
    destruct Hr as [r0 [<- _]]. reflexivity.
  - apply length_map.
  - apply set_date_other_rows.
  - reflexivity.
  - reflexivity.
  - destruct (filter is_pipeline_row t); reflexivity.
Qed.

Lemma last_default {A : Type} (l : list A) (x a b : A) :
  last (x :: l) a = last (x :: l) b.
Proof.
  revert x. induction l as [|y l IH]; intros x; [reflexivity|].
  change (last (y :: l) a = last (y :: l) b). apply IH.
Qed.

Lemma last_cons {A : Type} (l : list A) (d w : A) : last (d :: l) w = last l d.
Proof.
  destruct l as [|x l]; [reflexivity|].
  change (last (x :: l) w = last (x :: l) d). apply last_default.
Qed.

Lemma last_In {A : Type} (l : list A) (w : A) : l <> [] -> In (last l w) l.
Proof.
  induction l as [|x l IH]; intros Hne; [contradiction|].
  destruct l as [|y l]; [left; reflexivity|].
  right. apply IH. discriminate.
Qed.

Lemma last_In_or {A : Type} (l : list A) (w : A) : last l w = w \/ In (last l w) l.
Proof.
  destruct l as [|x l]; [left; reflexivity|].
  right. apply last_In. discriminate.
Qed.

(** After the loop the watermark is the last date of the part of the
    pending dates that went through, the old watermark when none did. *)
Lemma process_all_prefix (env : Env) (pending : list date) :
  forall s r s',
    pipeline_rows s <> [] ->
    process_all env pending s = (r, s') ->
    exists pre post,
      pending = pre ++ post
      /\ watermark s' = last pre (watermark s)
      /\ (r = Ok tt -> post = []).
Proof.
  induction pending as [|d rest IH]; intros s r s' Hrows Hrun.
  - injection Hrun as <- <-. exists [], []. auto.
  - cbn [process_all] in Hrun. unfold bind at 1 in Hrun.
    destruct (process_date_shape env d s) as (r1 & f & c & H1).
    rewrite H1 in Hrun.
    set (s1 := {| metadata := metadata s; fact_table := f; scd_table := c |}) in *.
    assert (Hw1 : watermark s1 = watermark s) by reflexivity.
    assert (Hp1 : pipeline_rows s1 = pipeline_rows s) by reflexivity.
    destruct r1 as [[]|e1].
    + unfold bind at 1 in Hrun.
      destruct (update_cases env d s1) as [[e Hu]|[t [Hm Hu]]]; rewrite Hu in Hrun.
      * injection Hrun as <- <-. exists [], (d :: rest).
        split; [reflexivity|]. split; [exact Hw1 | discriminate].
      * set (s2 := {| metadata := Some (set_date d t); fact_table := fact_table s1;
                      scd_table := scd_table s1 |}) in *.
        assert (Hp2 : pipeline_rows s2
                      = map (fun r0 => Meta.mk (Meta.table_name r0) d)
                            (pipeline_rows s)).
        { rewrite <- Hp1. unfold pipeline_rows. cbn [metadata]. rewrite Hm.
          apply set_date_pipeline_rows. }
        assert (Hw2 : watermark s2 = d).
        { unfold watermark. rewrite Hp2.
          destruct (pipeline_rows s); [contradiction | reflexivity]. }
        assert (Hr2 : pipeline_rows s2 <> []).
        { rewrite Hp2. destruct (pipeline_rows s); [contradiction | discriminate]. }
        destruct (IH s2 r s' Hr2 Hrun) as (pre & post & -> & Hw & Hok).
        exists (d :: pre), post. split; [reflexivity|].
        split; [|exact Hok]. rewrite Hw, Hw2. symmetry. apply last_cons.
    + injection Hrun as <- <-. exists [], (d :: rest).
      split; [reflexivity|]. split; [exact Hw1 | discriminate].
Qed.

Lemma date_le_refl (a : date) : date_le a a.
Proof. unfold date_le, date_leb. rewrite date_eqb_refl. apply orb_true_r. Qed.

Lemma date_lt_le (a b : date) : date_lt a b -> date_le a b.
Proof. unfold date_lt, date_le, date_leb. intros ->. reflexivity. Qed.

(** X13.  Whatever [__main__] does and however it ends, the watermark it
    leaves is the last date of an initial part of the pending dates, in
    ascending order, or the watermark it found when no date went through;
    when the run ends normally all pending dates went through.  So a run
    never moves the watermark back. *)
Theorem main_watermark (env : Env) (s : Store) :
  exists booking_dates customer_dates pre post,
    list_raw_dates (ls env BOOKING_RAW_DIR) BOOKING_PATTERN = Some booking_dates
    /\ list_raw_dates (ls env CUSTOMER_RAW_DIR) CUSTOMER_PATTERN = Some customer_dates
    /\ pending_dates booking_dates customer_dates (watermark s) = pre ++ post
    /\ watermark (snd (main env s)) = last pre (watermark s)
    /\ (fst (main env s) = Ok tt -> post = [])
    /\ date_le (watermark s) (watermark (snd (main env s))).
Proof.
  unfold main. unfold bind at 1 2 3.
  rewrite get_last_processed_date_eq. fold (watermark s).
  set (s0 := {| metadata := Some (insert_if_absent (created_table s));
                fact_table := fact_table s; scd_table := scd_table s |}).
  assert (Hs0 : s0 = snd (get_last_processed_date s))
    by (rewrite get_last_processed_date_eq; reflexivity).
  assert (Hp0 : pipeline_rows s0 <> []).
  { rewrite Hs0, pipeline_rows_after_get.
    destruct (pipeline_rows s); discriminate. }
  assert (Hw0 : watermark s0 = watermark s).
  { unfold watermark at 1. rewrite Hs0, pipeline_rows_after_get.
    unfold watermark. destruct (pipeline_rows s); reflexivity. }
  unfold list_raw_dates.
  destruct (compile BOOKING_PATTERN) as [pb|] eqn:Eb; [|discriminate Eb].
  destruct (compile CUSTOMER_PATTERN) as [pc|] eqn:Ec; [|discriminate Ec].
  set (booking_dates := sorted (set_of (collect_dates pb (ls env BOOKING_RAW_DIR)))).
  set (customer_dates := sorted (set_of (collect_dates pc (ls env CUSTOMER_RAW_DIR)))).
  destruct (process_all env (pending_dates booking_dates customer_dates (watermark s)) s0)
    as [r s'] eqn:Hrun.
  destruct (process_all_prefix env _ s0 Hp0 Hrun) as (pre & post & Hsplit & Hw & Hok).
  exists booking_dates, customer_dates, pre, post. cbn [fst snd].
  rewrite Hw0 in Hw.
  split; [reflexivity|]. split; [reflexivity|]. split; [exact Hsplit|].
  split; [exact Hw|]. split; [exact Hok|].
  rewrite Hw. destruct (last_In_or pre (watermark s)) as [->|Hin].
  - apply date_le_refl.
  - apply date_lt_le.
    assert (Hpend : In (last pre (watermark s))
                       (pending_dates booking_dates customer_dates (watermark s))).
    { rewrite Hsplit. apply in_or_app. left. exact Hin. }
    unfold pending_dates in Hpend.
    apply sorted_In, filter_In in Hpend. destruct Hpend as [_ Hpend].
    apply andb_true_iff in Hpend. apply Hpend.
Qed.

(** A run that finds two dates (the names carry the backslash the patterns
    ask for) takes them in order and ends with the later one as watermark. *)
Example main_two_dates :
  main (listing_env [backslash_name (jan 6) "."; backslash_name (jan 5) "."]
                    ["customers_2024-01-05\.csv"%string;
                     "customers_2024-01-06\.csv"%string;
                     "customers_2024-01-07\.csv"%string])
       empty_store
  = (Ok tt,
     {| metadata := Some [Meta.mk PIPELINE_NAME (jan 6)];
        fact_table := Some [fact_A1 100 4];
        scd_table := Some [customer_1 (jan 5) (jan 6); customer_1 (jan 6) OPEN_DATE] |}).
Proof. vm_compute. reflexivity. Qed.

(** ** The join does not multiply bookings *)

Lemma join_matches_at_most_one (b : Booking.row) (customers : list Customer.row) :
  NoDup (map Customer.customer_id customers) ->
  join_matches b customers = [] \/ exists c, join_matches b customers = [c].
Proof.
  unfold join_matches. induction customers as [|c customers IH]; simpl; intros Hnd.
  - left. reflexivity.
  - inversion Hnd as [|x l Hnotin Hnd']; subst.
    destruct (sql_eq Z.eqb (Booking.customer_id b) (Customer.customer_id c)) eqn:E.
    + right. exists c. f_equal. apply filter_nil_iff. intros c' Hc'.
      apply not_true_is_false. intros E'. apply Hnotin.
      apply (sql_eq_true Z.eqb Z.eqb_eq) in E, E'.
      destruct E as [i [Hb Hc]]. destruct E' as [i' [Hb' Hc'']].
      apply in_map_iff. exists c'. split; [congruence | exact Hc'].
    + apply IH. exact Hnd'.
Qed.

(** X14.  When the customer file has no customer_id twice, the left join
    gives exactly one row per booking, in the order of the bookings, so the
    aggregation input holds each booking with a quantity above 0 once and
    no other booking. *)
Theorem left_join_one_row_per_booking (now : Z) (bookings : list Booking.row)
        (customers : list Customer.row) :
  NoDup (map Customer.customer_id customers) ->
  map (fun j => fst (fst j)) (left_join now bookings customers) = bookings
  /\ map t_booking (transform now bookings customers)
     = filter (fun b => sql_gt0 (Booking.quantity b)) bookings.
Proof.
  intros Hnd.
  assert (Hjoin : map (fun j => fst (fst j)) (left_join now bookings customers)
                  = bookings).
  { unfold left_join. induction bookings as [|b bookings IH]; [reflexivity|].
    cbn [flat_map]. rewrite map_app, IH.
    destruct (join_matches_at_most_one b customers Hnd) as [->|[c ->]];
      reflexivity. }
  split; [exact Hjoin|].
  unfold transform. rewrite <- Hjoin at 2. clear Hjoin.
  induction (left_join now bookings customers) as [|[[b t] c] joined IH];
    [reflexivity|].
  simpl. destruct (sql_gt0 (Booking.quantity b)); simpl.
  - f_equal. apply IH.
  - apply IH.
Qed.

Lemma left_join_one_row_per_booking_witness :
  NoDup (map Customer.customer_id [customer 1 "ann"; customer 2 "bob"])
  /\ map t_booking
         (transform 0 [booking 1 1 50 2 0 "A"; booking 2 3 20 0 0 "A";
                       booking 3 2 30 1 5 "B"]
                    [customer 1 "ann"; customer 2 "bob"])
     = filter (fun b => sql_gt0 (Booking.quantity b))
              [booking 1 1 50 2 0 "A"; booking 2 3 20 0 0 "A"; booking 3 2 30 1 5 "B"].
Proof.
  assert (H : NoDup (map Customer.customer_id [customer 1 "ann"; customer 2 "bob"])).
  { repeat constructor; simpl; intuition discriminate. }
  split; [exact H|].
  exact (proj2 (@left_join_one_row_per_booking 0
                  [booking 1 1 50 2 0 "A"; booking 2 3 20 0 0 "A";
                   booking 3 2 30 1 5 "B"]
                  [customer 1 "ann"; customer 2 "bob"] H)).
Defined.

(** A customer_id twice in the customer file counts the bookings of that
    customer twice. *)
Example left_join_fan_out :
  aggregate (transform 0 one_booking [customer 1 "ann"; customer 1 "bob"])
  = [fact_A1 100 4].
Proof. reflexivity. Qed.

(** ** The aggregation keeps the totals *)


Lemma key_eqb_sym (a b : key) : key_eqb a b = key_eqb b a.
Proof.
  destruct (key_eqb a b) eqn:E; symmetry.
  - apply key_eqb_eq. apply key_eqb_eq in E. congruence.
  - apply key_eqb_neq. apply key_eqb_neq in E. congruence.
Qed.


Lemma filter_all {A : Type} (f : A -> bool) (l : list A) :
  (forall x, In x l -> f x = true) -> filter f l = l.
Proof.
  induction l as [|a l IH]; intros H; simpl; [reflexivity|].
  rewrite (H a (or_introl eq_refl)). f_equal. apply IH.
  intros x Hx. apply H. right. exact Hx.
Qed.


Section Totals.
Variable R : Type.
Variable key_of : R -> key.
Variable column : R -> option Z.


End Totals.


(** ** Dates with nothing to add, and the order of dates *)

Lemma distinct_of_NoDup (l : list key) : NoDup l -> distinct l = l.
Proof.
  induction 1 as [|x l Hx Hnd IH]; [reflexivity|].
  cbn [distinct]. rewrite IH. f_equal. apply filter_all.
  intros k Hk. apply negb_true_iff, key_eqb_neq. intros ->. contradiction.
Qed.

Lemma group_single (f : Fact.row) (t : list Fact.row) :
  NoDup (map fact_key t) -> In f t -> group fact_key (fact_key f) t = [f].
Proof.
  unfold group. induction t as [|x t IH]; intros Hnd Hin; [destruct Hin|].
  cbn [map] in Hnd. inversion Hnd as [|k ks Hnotin Hnd']; subst.
  cbn [filter]. destruct Hin as [->|Hin].
  - rewrite key_eqb_refl. f_equal. apply filter_nil_iff. intros y Hy.
    apply key_eqb_neq. intros E. apply Hnotin. rewrite <- E. apply in_map, Hy.
  - replace (key_eqb (fact_key x) (fact_key f)) with false; [apply IH; assumption|].
    symmetry. apply key_eqb_neq. intros E. apply Hnotin. rewrite E.
    apply in_map, Hin.
Qed.

Lemma transform_nil (now : Z) (bookings : list Booking.row)
      (customers : list Customer.row) :
  Forall (fun b => sql_gt0 (Booking.quantity b) = false) bookings ->
  transform now bookings customers = [].
Proof.
  intros H. unfold transform. apply filter_nil_iff. intros r Hr.
  apply in_map_iff in Hr. destruct Hr as [[[b t] c] [<- Hj]].
  apply left_join_In in Hj. destruct Hj as [Hb _].
  rewrite Forall_forall in H. apply H, Hb.
Qed.

(** X16.  A date none of whose bookings has a quantity above 0 adds
    nothing: a fact table with one row per key comes out of the union and
    the second grouping row for row as it went in, and without a fact table
    the date creates an empty one. *)
Theorem aggregate_and_merge_nothing_to_add (now : Z) (bookings : list Booking.row)
        (customers : list Customer.row) (existing : list Fact.row) :
  Forall (fun b => sql_gt0 (Booking.quantity b) = false) bookings ->
  NoDup (map fact_key existing) ->
  aggregate_and_merge (transform now bookings customers) (Some existing) = existing
  /\ aggregate_and_merge (transform now bookings customers) None = [].
Proof.
  intros Hq Hnd. rewrite (transform_nil now customers Hq).
  split; [|reflexivity].
  cbn [aggregate_and_merge]. change (aggregate []) with (@nil Fact.row).
  rewrite app_nil_r. unfold reaggregate, group_sum.
  rewrite (distinct_of_NoDup Hnd), map_map.
  transitivity (map (fun f : Fact.row => f) existing); [|apply map_id].
  apply map_ext_in. intros f Hf.
  unfold summed. rewrite (group_single f existing Hnd Hf).
  cbn [map sql_sum fold_right]. rewrite !sql_add_None_r.
  destruct f; reflexivity.
Qed.

Lemma aggregate_and_merge_nothing_to_add_witness :
  Forall (fun b => sql_gt0 (Booking.quantity b) = false)
         [null_quantity_booking; booking 2 1 20 0 0 "A"]
  /\ NoDup (map fact_key [fact_A1 100 5])
  /\ aggregate_and_merge
       (transform 0 [null_quantity_booking; booking 2 1 20 0 0 "A"]
                  (customer_rows one_customer))
       (Some [fact_A1 100 5]) = [fact_A1 100 5].
Proof.
  assert (Hq : Forall (fun b => sql_gt0 (Booking.quantity b) = false)
                      [null_quantity_booking; booking 2 1 20 0 0 "A"])
    by (repeat constructor).
  assert (Hnd : NoDup (map fact_key [fact_A1 100 5]))
    by (repeat constructor; simpl; tauto).
  split; [exact Hq|]. split; [exact Hnd|].
  exact (proj1 (@aggregate_and_merge_nothing_to_add 0
                  [null_quantity_booking; booking 2 1 20 0 0 "A"]
                  (customer_rows one_customer) [fact_A1 100 5] Hq Hnd)).
Defined.



(** ** What the SCD2 step keeps *)

Lemma merge_close_eq (scd updates closed : list Customer.row) :
  merge_close scd updates = Some closed -> closed = map (closed_by updates) scd.
Proof.
  unfold merge_close, closed_by.
  destruct (existsb _ scd); [discriminate|].
  intros H. injection H as <-. reflexivity.
Qed.

Lemma closed_by_cases (updates : list Customer.row) (t : Customer.row) :
  closed_by updates t = t
  \/ (Customer.valid_to t = Some OPEN_DATE
      /\ exists u, In u updates
                   /\ merge_condition t u = true
                   /\ closed_by updates t
                      = Customer.set_valid_to t (Customer.valid_from u)).
Proof.
  unfold closed_by. destruct (merge_matches t updates) as [|u ms] eqn:E.
  - left. reflexivity.
  - right.
    assert (Hu : In u (merge_matches t updates)) by (rewrite E; left; reflexivity).
    apply filter_In in Hu. destruct Hu as [Hin Hc].
    split; [apply merge_condition_iff in Hc; apply Hc|].
    exists u. auto.
Qed.

(** X18.  The SCD2 step deletes nothing and rewrites nothing but
    [valid_to]: when it succeeds, the table it leaves is the table it found,
    row for row with the same customer_id, attributes and [valid_from],
    followed by the incoming rows; a row that was closed keeps its
    [valid_to] too. *)
Theorem apply_scd2_keeps_history (d : date) (df : CustomerDF)
        (existing : option (list Customer.row)) (t : list Customer.row) :
  apply_scd2 d df existing = Some t ->
  exists kept,
    t = kept ++ with_validity d df
    /\ map (fun r => Customer.set_valid_to r None) kept
       = map (fun r => Customer.set_valid_to r None) (rows_of existing)
    /\ Forall2 (fun r r' => Customer.valid_to r <> Some OPEN_DATE -> r' = r)
               (rows_of existing) kept.
Proof.
  unfold apply_scd2. destruct existing as [scd|]; cbn [rows_of].
  - destruct (merge_close scd (with_validity d df)) as [closed|] eqn:E;
      [|discriminate].
    intros H. injection H as <-. apply merge_close_eq in E. subst closed.
    exists (map (closed_by (with_validity d df)) scd).
    split; [reflexivity|]. split.
    + rewrite map_map. apply map_ext. intros r.
      destruct (closed_by_cases (with_validity d df) r) as [->|[_ [u (_ & _ & ->)]]];
        reflexivity.
    + apply Forall2_map_right. intros r _ Hclosed.
      destruct (closed_by_cases (with_validity d df) r) as [E|[Ho _]];
        [exact E | contradiction].
  - intros H. injection H as <-. exists []. repeat constructor.
Qed.

Lemma apply_scd2_keeps_history_witness :
  apply_scd2 (jan 7) incoming_5
             (Some [dim_row 5 (jan 1) OPEN_DATE; dim_row 5 (mkdate 2023 1 1) (jan 1)])
  = Some [dim_row 5 (jan 1) (jan 5); dim_row 5 (mkdate 2023 1 1) (jan 1);
          dim_row 5 (jan 5) OPEN_DATE]
  /\ exists kept,
      [dim_row 5 (jan 1) (jan 5); dim_row 5 (mkdate 2023 1 1) (jan 1);
       dim_row 5 (jan 5) OPEN_DATE] = kept ++ with_validity (jan 7) incoming_5
      /\ map (fun r => Customer.set_valid_to r None) kept
         = map (fun r => Customer.set_valid_to r None)
               [dim_row 5 (jan 1) OPEN_DATE; dim_row 5 (mkdate 2023 1 1) (jan 1)].
Proof.
  split; [reflexivity|].
  destruct (@apply_scd2_keeps_history (jan 7) incoming_5
              (Some [dim_row 5 (jan 1) OPEN_DATE; dim_row 5 (mkdate 2023 1 1) (jan 1)])
              [dim_row 5 (jan 1) (jan 5); dim_row 5 (mkdate 2023 1 1) (jan 1);
               dim_row 5 (jan 5) OPEN_DATE] eq_refl) as [kept (H1 & H2 & _)].
  exists kept. split; assumption.
Defined.

(** X19.  Valid-time intervals chain over two dates: a customer that the
    file of date [d1] brings into a new dimension table and that the file
    of date [d2] brings again (files without validity columns) ends with
    the row of [d1] closed at [d2], and the row of [d2] open. *)
Theorem scd2_intervals_chain (d1 d2 : date) (df1 df2 : CustomerDF)
        (r1 r2 : Customer.row) (i : Z) (t : list Customer.row) :
  has_valid_from df1 = false -> has_valid_to df1 = false ->
  has_valid_from df2 = false -> has_valid_to df2 = false ->
  In r1 (customer_rows df1) -> Customer.customer_id r1 = Some i ->
  In r2 (customer_rows df2) -> Customer.customer_id r2 = Some i ->
  apply_scd2 d2 df2 (apply_scd2 d1 df1 None) = Some t ->
  In (Customer.set_valid_to (Customer.set_valid_from r1 (Some d1)) (Some d2)) t
  /\ In (Customer.set_valid_to (Customer.set_valid_from r2 (Some d2)) (Some OPEN_DATE)) t.
Proof.
  intros Hf1 Ht1 Hf2 Ht2 Hr1 Hi1 Hr2 Hi2 Happly.
  set (row1 := Customer.set_valid_to (Customer.set_valid_from r1 (Some d1))
                                     (Some OPEN_DATE)).
  set (row2 := Customer.set_valid_to (Customer.set_valid_from r2 (Some d2))
                                     (Some OPEN_DATE)).
  assert (Hrow1 : In row1 (with_validity d1 df1)).
  { unfold with_validity. rewrite Hf1, Ht1. apply in_map_iff. exists r1. auto. }
  assert (Hrow2 : In row2 (with_validity d2 df2)).
  { unfold with_validity. rewrite Hf2, Ht2. apply in_map_iff. exists r2. auto. }
  cbn [apply_scd2] in Happly.
  destruct (merge_close (with_validity d1 df1) (with_validity d2 df2))
    as [closed|] eqn:E; [|discriminate].
  injection Happly as <-. apply merge_close_eq in E. subst closed.
  split; [|apply in_or_app; right; exact Hrow2].
  apply in_or_app. left. apply in_map_iff. exists row1. split; [|exact Hrow1].
  unfold closed_by.
  destruct (merge_matches row1 (with_validity d2 df2)) as [|m ms] eqn:Em.
  - exfalso.
    assert (Hc : merge_condition row1 row2 = true).
    { apply merge_condition_iff. split; [exists i; auto | reflexivity]. }
    unfold merge_matches in Em.
    rewrite (proj1 (filter_nil_iff _ _) Em row2 Hrow2) in Hc. discriminate.
  - assert (Hm : In m (with_validity d2 df2)).
    { assert (In m (merge_matches row1 (with_validity d2 df2))) as Hm
          by (rewrite Em; left; reflexivity).
      apply filter_In in Hm. apply Hm. }
    destruct (with_validity_defaults d2 df2 m Hf2 Ht2 Hm) as [-> _].
    reflexivity.
Qed.

Lemma scd2_intervals_chain_witness :
  apply_scd2 (jan 6) one_customer (apply_scd2 (jan 5) one_customer None)
  = Some [customer_1 (jan 5) (jan 6); customer_1 (jan 6) OPEN_DATE]
  /\ In (Customer.set_valid_to (Customer.set_valid_from (customer 1 "ann") (Some (jan 5)))
                               (Some (jan 6)))
        [customer_1 (jan 5) (jan 6); customer_1 (jan 6) OPEN_DATE]
  /\ In (Customer.set_valid_to (Customer.set_valid_from (customer 1 "ann") (Some (jan 6)))
                               (Some OPEN_DATE))
        [customer_1 (jan 5) (jan 6); customer_1 (jan 6) OPEN_DATE].
Proof.
  split; [reflexivity|].
  apply (@scd2_intervals_chain (jan 5) (jan 6) one_customer one_customer
           (customer 1 "ann") (customer 1 "ann") 1
           [customer_1 (jan 5) (jan 6); customer_1 (jan 6) OPEN_DATE]);
    try reflexivity; left; reflexivity.
Defined.

(** ** Reading the watermark leaves the rest alone *)

Lemma insert_if_absent_other_rows (t : list Meta.row) :
  filter (fun r => negb (is_pipeline_row r)) (insert_if_absent t)
  = filter (fun r => negb (is_pipeline_row r)) t.
Proof.
  unfold insert_if_absent. destruct (existsb is_pipeline_row t); [reflexivity|].
  rewrite filter_app. cbn [filter]. rewrite is_pipeline_row_sentinel.
  apply app_nil_r.
Qed.

(** X20.  [get_last_processed_date] never fails: it answers the watermark,
    also on a metadata table that does not exist or has no record of the
    pipeline; and it touches nothing but that record: the records of other
    pipelines, the fact table and the dimension table are as before, and a
    pipeline record that was there keeps its date. *)
Theorem get_last_processed_date_total (s : Store) :
  fst (get_last_processed_date s) = Ok (watermark s)
  /\ watermark (snd (get_last_processed_date s)) = watermark s
  /\ other_rows (snd (get_last_processed_date s)) = other_rows s
  /\ fact_table (snd (get_last_processed_date s)) = fact_table s
  /\ scd_table (snd (get_last_processed_date s)) = scd_table s
  /\ metadata (snd (get_last_processed_date s)) <> None.
Proof.
  split; [rewrite get_last_processed_date_eq; reflexivity|].
  split.
  - unfold watermark. rewrite pipeline_rows_after_get.
    destruct (pipeline_rows s); reflexivity.
  - rewrite get_last_processed_date_eq. cbn [snd].
    unfold other_rows, created_table. cbn [metadata fact_table scd_table].
    split; [apply insert_if_absent_other_rows|].
    split; [reflexivity|]. split; [reflexivity | discriminate].
Qed.
